(** * Voyagent: the Gemini query preprocessor

    A shallow embedding of [tools/gemini_preprocessor.py] and the properties
    of [GeminiPreprocessor.preprocess_query] and [get_optimized_query].

    Conventions of the model.
    - A Python [str] is a Rocq [string].  Every delimiter and keyword the
      program looks for is ASCII; [lower] changes the letters A-Z and leaves
      every other character as it is.  Text outside ASCII is carried as its
      UTF-8 bytes.
    - A Python value is a [pyval]; a [dict] is an association list in
      insertion order with one entry per key.
    - Code that can raise runs in the error monad [sum exn] of ExtLib:
      [inl e] is an exception [e] in flight, [inr v] a normal result.  The
      [exn] type holds exceptions deriving from [Exception], which is the
      class the handler of [preprocess_query] names.
    - The remote completion service is not part of the program.  Its
      behaviour on one call is the outcome of
      [self.llm.invoke(messages).content]: an exception or the reply text. *)

From Stdlib Require Import String Ascii List ZArith Lia Bool DecimalString.
From ExtLib Require Import Structures.Monad Structures.MonadExc
  Data.Monads.EitherMonad.
Import ListNotations MonadNotation.

Local Open Scope string_scope.
Local Open Scope monad_scope.

(** ** Python strings *)

Module PyStr.

Definition quote : ascii := "034"%char.
Definition newline : ascii := "010"%char.

Definition is_upper (c : ascii) : bool :=
  (65 <=? nat_of_ascii c)%nat && (nat_of_ascii c <=? 90)%nat.

Definition lower_char (c : ascii) : ascii :=
  if is_upper c then ascii_of_nat (nat_of_ascii c + 32) else c.

(** [s.lower()] *)
Fixpoint lower (s : string) : string :=
  match s with
  | EmptyString => EmptyString
  | String c r => String (lower_char c) (lower r)
  end.

(** [sub in s] on strings: [sub] occurs in [s] as a contiguous run. *)
Fixpoint str_in (sub s : string) : bool :=
  prefix sub s ||
  match s with
  | EmptyString => false
  | String _ r => str_in sub r
  end.

(** [s.find(c)] for a one-character needle, which is the only way the
    program calls it: the least index holding [c], or -1. *)
Fixpoint str_find (c : ascii) (s : string) : Z :=
  match s with
  | EmptyString => (-1)%Z
  | String a r =>
      if Ascii.eqb a c then 0%Z
      else let i := str_find c r in
           if (i <? 0)%Z then (-1)%Z else (i + 1)%Z
  end.

(** [s.rfind(c)] for a one-character needle: the greatest index holding
    [c], or -1. *)
Fixpoint str_rfind (c : ascii) (s : string) : Z :=
  match s with
  | EmptyString => (-1)%Z
  | String a r =>
      let i := str_rfind c r in
      if (0 <=? i)%Z then (i + 1)%Z
      else if Ascii.eqb a c then 0%Z else (-1)%Z
  end.

(** Index normalisation of a slice bound: a negative bound counts from the
    end, and the result is clamped to [0 .. len]. *)
Definition clamp_index (len i : Z) : Z :=
  if (i <? 0)%Z then Z.max 0 (i + len) else Z.min i len.

(** [s[a:b]] *)
Definition py_slice (s : string) (a b : Z) : string :=
  let len := Z.of_nat (String.length s) in
  let a' := clamp_index len a in
  let b' := clamp_index len b in
  substring (Z.to_nat a') (Z.to_nat (b' - a')) s.

(** [x in [k1, k2, ...]] for a string [x] and a list of strings. *)
Definition list_in (x : string) (l : list string) : bool :=
  existsb (String.eqb x) l.

(** The suffix of [s] from index [n] on. *)
Fixpoint drop (n : nat) (s : string) : string :=
  match n, s with
  | O, _ => s
  | S n', String _ r => drop n' r
  | S _, EmptyString => EmptyString
  end.

(** Decimal rendering of a number, as [%d] does. *)
Definition dec (n : nat) : string := NilEmpty.string_of_uint (Nat.to_uint n).

(** Text written with ['] where the JSON has a double quote. *)
Fixpoint dq (s : string) : string :=
  match s with
  | EmptyString => EmptyString
  | String c r => String (if Ascii.eqb c "'" then quote else c) (dq r)
  end.

End PyStr.
Import PyStr.

(** ** Python values, dictionaries and exceptions *)

#[warnings="-register-all"]
Inductive pyval : Type :=
| PNone
| PBool (b : bool)
| PInt (z : Z)
| PFloat (lit : string)
| PStr (s : string)
| PList (l : list pyval)
| PDict (d : list (string * pyval)).

(** A float is kept as the text it was read from; the program never
    computes with one. *)

Definition dict : Type := list (string * pyval).

(** [d.get(k)] as an option: [None] when the key is absent. *)
Fixpoint dict_get (d : dict) (k : string) : option pyval :=
  match d with
  | [] => None
  | (k', v) :: r => if String.eqb k' k then Some v else dict_get r k
  end.

(** [d[k] = v]: an existing key keeps its place, a new one goes last. *)
Fixpoint dict_set (d : dict) (k : string) (v : pyval) : dict :=
  match d with
  | [] => [(k, v)]
  | (k', v') :: r =>
      if String.eqb k' k then (k', v) :: r else (k', v') :: dict_set r k v
  end.

(** [k in d] *)
Definition dict_contains (d : dict) (k : string) : bool :=
  match dict_get d k with Some _ => true | None => false end.

(** [d.get(k, default)] *)
Definition dict_get_default (d : dict) (k : string) (default : pyval) : pyval :=
  match dict_get d k with Some v => v | None => default end.

(** [type(v).__name__] *)
Definition type_name (v : pyval) : string :=
  match v with
  | PNone => "NoneType"
  | PBool _ => "bool"
  | PInt _ => "int"
  | PFloat _ => "float"
  | PStr _ => "str"
  | PList _ => "list"
  | PDict _ => "dict"
  end.

Inductive exn : Type :=
| JSONDecodeError (msg doc : string) (pos : nat)
| AttributeError (msg : string)
| TypeError (msg : string)
| RecursionError (msg : string)
| KeyError (key : string)
| OtherError (class_name msg : string).

(** [JSONDecodeError.__init__]:
    [lineno = doc.count('\n', 0, pos) + 1],
    [colno = pos - doc.rfind('\n', 0, pos)],
    [errmsg = '%s: line %d column %d (char %d)']. *)
Fixpoint count_char (c : ascii) (s : string) : nat :=
  match s with
  | EmptyString => 0
  | String a r => (if Ascii.eqb a c then 1 else 0) + count_char c r
  end.

Definition lineno (doc : string) (pos : nat) : nat :=
  count_char newline (substring 0 pos doc) + 1.

Definition colno (doc : string) (pos : nat) : nat :=
  Z.to_nat (Z.of_nat pos - str_rfind newline (substring 0 pos doc)).

Definition errmsg (msg doc : string) (pos : nat) : string :=
  msg ++ ": line " ++ dec (lineno doc pos) ++ " column "
      ++ dec (colno doc pos) ++ " (char " ++ dec pos ++ ")".

(** [str(e)] *)
Definition str_exn (e : exn) : string :=
  match e with
  | JSONDecodeError msg doc pos => errmsg msg doc pos
  | AttributeError msg => msg
  | TypeError msg => msg
  | RecursionError msg => msg
  | KeyError key => "'" ++ key ++ "'"
  | OtherError _ msg => msg
  end.

(** A computation that returns an [A] or raises. *)
Abbreviation py := (sum exn).

(** ** The JSON decoder behind [json.loads]

    [json.loads] belongs to CPython, not to this repository.  The decoder
    below follows CPython's: [loads], [decode] and [raw_decode] of
    [json/__init__.py] and [json/decoder.py], and under them the scanner
    that CPython runs ([scan_once], the object and array loops, the string
    scanner and the number matcher), with its messages and positions.
    Two limits of the interpreter have no counterpart here: the recursion
    limit on nesting depth and the digit limit on integer literals. *)

Module Json.

Inductive scan_result (A : Type) : Type :=
| Scanned (v : A) (next : nat)
| StopIteration (idx : nat)
| Errmsg (msg : string) (pos : nat)
| Exhausted.

Arguments Scanned {A} v next.
Arguments StopIteration {A} idx.
Arguments Errmsg {A} msg pos.
Arguments Exhausted {A}.

Definition char_at (s : string) (i : nat) : option ascii := String.get i s.

(** [idx <= end_idx && str[idx] == c] *)
Definition char_is (s : string) (i : nat) (c : ascii) : bool :=
  match char_at s i with Some a => Ascii.eqb a c | None => false end.

Definition IS_WHITESPACE (c : ascii) : bool :=
  Ascii.eqb c " " || Ascii.eqb c "009" || Ascii.eqb c "010" || Ascii.eqb c "013".

Definition is_digit (c : ascii) : bool :=
  (48 <=? nat_of_ascii c)%nat && (nat_of_ascii c <=? 57)%nat.

(** [while (idx <= end_idx && P(str[idx])) idx++;] *)
Fixpoint skip_while (P : ascii -> bool) (rest : string) (idx : nat) : nat :=
  match rest with
  | EmptyString => idx
  | String c r => if P c then skip_while P r (S idx) else idx
  end.

Definition skip_ws (s : string) (idx : nat) : nat :=
  skip_while IS_WHITESPACE (drop idx s) idx.

Definition skip_digits (s : string) (idx : nat) : nat :=
  skip_while is_digit (drop idx s) idx.

(** *** Strings *)

Definition hex_val (c : ascii) : option N :=
  let n := N_of_ascii c in
  if (48 <=? n)%N && (n <=? 57)%N then Some (n - 48)%N
  else if (97 <=? n)%N && (n <=? 102)%N then Some (n - 97 + 10)%N
  else if (65 <=? n)%N && (n <=? 70)%N then Some (n - 65 + 10)%N
  else None.

(** The four hex digits at [i .. i+3], most significant first. *)
Definition hex4 (s : string) (i : nat) : option N :=
  match char_at s i, char_at s (i + 1), char_at s (i + 2), char_at s (i + 3) with
  | Some a, Some b, Some c, Some d =>
      match hex_val a, hex_val b, hex_val c, hex_val d with
      | Some a, Some b, Some c, Some d =>
          Some (N.lor (N.shiftl (N.lor (N.shiftl (N.lor (N.shiftl a 4) b) 4) c) 4) d)
      | _, _, _, _ => None
      end
  | _, _, _, _ => None
  end.

Definition byte (n : N) : ascii := ascii_of_N n.

(** The character of code point [c], as its UTF-8 bytes. *)
Definition chr (c : N) : string :=
  let cont (k : N) := byte (N.lor 128 (N.land (N.shiftr c k) 63)) in
  if (c <? 128)%N then String (byte c) EmptyString
  else if (c <? 2048)%N then
    String (byte (N.lor 192 (N.shiftr c 6))) (String (cont 0%N) EmptyString)
  else if (c <? 65536)%N then
    String (byte (N.lor 224 (N.shiftr c 12)))
      (String (cont 6%N) (String (cont 0%N) EmptyString))
  else
    String (byte (N.lor 240 (N.shiftr c 18)))
      (String (cont 12%N) (String (cont 6%N) (String (cont 0%N) EmptyString))).

Definition is_high_surrogate (c : N) : bool := (55296 <=? c)%N && (c <=? 56319)%N.
Definition is_low_surrogate (c : N) : bool := (56320 <=? c)%N && (c <=? 57343)%N.
Definition join_surrogates (c c2 : N) : N :=
  (65536 + N.lor (N.shiftl (N.land c 1023) 10) (N.land c2 1023))%N.

(** The non-unicode backslash escapes. *)
Definition BACKSLASH (c : ascii) : option ascii :=
  if Ascii.eqb c quote then Some quote
  else if Ascii.eqb c "\" then Some "\"%char
  else if Ascii.eqb c "/" then Some "/"%char
  else if Ascii.eqb c "b" then Some "008"%char
  else if Ascii.eqb c "f" then Some "012"%char
  else if Ascii.eqb c "n" then Some "010"%char
  else if Ascii.eqb c "r" then Some "013"%char
  else if Ascii.eqb c "t" then Some "009"%char
  else None.

Inductive chunk_end : Type :=
| AtQuote (next : nat)
| AtBackslash (next : nat)
| AtControl (next : nat)
| AtEnd.

(** Find the end of the string or the next escape:
    [for (next = end; next < len; next++)]. *)
Fixpoint scan_chunk (rest : string) (next : nat) : chunk_end :=
  match rest with
  | EmptyString => AtEnd
  | String d r =>
      if Ascii.eqb d quote then AtQuote next
      else if Ascii.eqb d "\" then AtBackslash next
      else if (nat_of_ascii d <=? 31)%nat then AtControl next
      else scan_chunk r (S next)
  end.

(** The loop of the string scanner; [begin] is the index of the opening
    quote, [end_] the index scanning resumes at, [acc] the text so far. *)
Fixpoint scanstring_loop (fuel : nat) (s : string) (begin end_ : nat)
    (acc : string) : scan_result string :=
  match fuel with
  | O => Exhausted
  | S fuel' =>
    match scan_chunk (drop end_ s) end_ with
    | AtControl next => Errmsg "Invalid control character at" next
    | AtEnd => Errmsg "Unterminated string starting at" begin
    | AtQuote next => Scanned (acc ++ substring end_ (next - end_) s) (S next)
    | AtBackslash next =>
      let acc := acc ++ substring end_ (next - end_) s in
      let next := S next in
      match char_at s next with
      | None => Errmsg "Unterminated string starting at" begin
      | Some c =>
        if negb (Ascii.eqb c "u") then
          match BACKSLASH c with
          | None => Errmsg "Invalid \escape" (next + 1 - 2)
          | Some ch =>
              scanstring_loop fuel' s begin (next + 1) (acc ++ String ch EmptyString)
          end
        else
          let next := S next in
          let end_ := next + 4 in
          if (String.length s <=? end_)%nat then
            Errmsg "Invalid \uXXXX escape" (next - 1)
          else
            match hex4 s next with
            | None => Errmsg "Invalid \uXXXX escape" (end_ - 5)
            | Some c =>
              if is_high_surrogate c && (end_ + 6 <? String.length s)%nat
                 && char_is s end_ "\" && char_is s (end_ + 1) "u" then
                match hex4 s (end_ + 2) with
                | None => Errmsg "Invalid \uXXXX escape" (end_ + 6 - 5)
                | Some c2 =>
                  if is_low_surrogate c2 then
                    scanstring_loop fuel' s begin (end_ + 6)
                      (acc ++ chr (join_surrogates c c2))
                  else scanstring_loop fuel' s begin end_ (acc ++ chr c)
                end
              else scanstring_loop fuel' s begin end_ (acc ++ chr c)
            end
      end
    end
  end.

(** [scanstring(s, end)]: [end_] is the index after the opening quote. *)
Definition scanstring (s : string) (end_ : nat) : scan_result string :=
  scanstring_loop (S (String.length s)) s (end_ - 1) end_ EmptyString.

(** *** Numbers *)

Fixpoint digits_value (s : string) (acc : Z) : Z :=
  match s with
  | EmptyString => acc
  | String c r => digits_value r (10 * acc + Z.of_nat (nat_of_ascii c - 48))%Z
  end.

(** [int(numstr)] on a literal the matcher accepted. *)
Definition parse_int (numstr : string) : Z :=
  match numstr with
  | String "-" r => (- digits_value r 0)%Z
  | _ => digits_value numstr 0%Z
  end.

Definition match_number (s : string) (start : nat) : scan_result pyval :=
  let neg := char_is s start "-" in
  let idx := if neg then S start else start in
  match char_at s idx with
  | None => StopIteration start
  | Some c =>
    if negb (is_digit c) then StopIteration start
    else
      (* integer digits: one 0, or 1-9 followed by any digits *)
      let idx := if Ascii.eqb c "0" then S idx else skip_digits s (S idx) in
      (* a '.' followed by a digit starts the fraction *)
      let has_frac :=
        char_is s idx "." &&
        match char_at s (idx + 1) with Some d => is_digit d | None => false end in
      let idx := if has_frac then skip_digits s (idx + 2) else idx in
      (* an 'e' or 'E' may start an exponent, or be backtracked over *)
      let e_start := idx in
      let has_e :=
        (char_is s idx "e" || char_is s idx "E") &&
        match char_at s (idx + 1) with Some _ => true | None => false end in
      let idx1 := S e_start in
      let idx2 :=
        if (char_is s idx1 "-" || char_is s idx1 "+") &&
           match char_at s (idx1 + 1) with Some _ => true | None => false end
        then S idx1 else idx1 in
      let idx3 := skip_digits s idx2 in
      let has_exp :=
        has_e &&
        match char_at s (idx3 - 1) with Some d => is_digit d | None => false end in
      let idx := if has_exp then idx3 else e_start in
      let numstr := substring start (idx - start) s in
      if has_frac || has_exp then Scanned (PFloat numstr) idx
      else Scanned (PInt (parse_int numstr)) idx
  end.

(** *** Objects, arrays and [scan_once] *)

Section Containers.

(** The scanner the loops call for every term: [scan_once] itself, one
    level further down. *)
Variable scan : string -> nat -> scan_result pyval.

Fixpoint parse_object_loop (n : nat) (s : string) (idx : nat) (rval : dict)
    : scan_result pyval :=
  match n with
  | O => Exhausted
  | S n' =>
    (* read key *)
    if negb (char_is s idx quote) then
      Errmsg "Expecting property name enclosed in double quotes" idx
    else
      match scanstring s (idx + 1) with
      | Scanned key next =>
        (* skip whitespace between key and : delimiter, read :, skip whitespace *)
        let idx := skip_ws s next in
        if negb (char_is s idx ":") then Errmsg "Expecting ':' delimiter" idx
        else
          let idx := skip_ws s (S idx) in
          (* read any JSON term *)
          match scan s idx with
          | Scanned val next =>
            let rval := dict_set rval key val in
            (* skip whitespace before } or , *)
            let idx := skip_ws s next in
            if char_is s idx "}" then Scanned (PDict rval) (idx + 1)
            else if negb (char_is s idx ",") then
              Errmsg "Expecting ',' delimiter" idx
            else parse_object_loop n' s (skip_ws s (S idx)) rval
          | StopIteration i => StopIteration i
          | Errmsg m p => Errmsg m p
          | Exhausted => Exhausted
          end
      | StopIteration i => StopIteration i
      | Errmsg m p => Errmsg m p
      | Exhausted => Exhausted
      end
  end.

Definition parse_object (s : string) (idx : nat) : scan_result pyval :=
  (* skip whitespace after { *)
  let idx := skip_ws s idx in
  (* only loop if the object is non-empty *)
  if char_is s idx "}" then Scanned (PDict []) (idx + 1)
  else parse_object_loop (S (String.length s)) s idx [].

Fixpoint parse_array_loop (n : nat) (s : string) (idx : nat) (rval : list pyval)
    : scan_result pyval :=
  match n with
  | O => Exhausted
  | S n' =>
    (* read any JSON term *)
    match scan s idx with
    | Scanned val next =>
      let rval := (rval ++ [val])%list in
      (* skip whitespace between term and , *)
      let idx := skip_ws s next in
      if char_is s idx "]" then Scanned (PList rval) (idx + 1)
      else if negb (char_is s idx ",") then Errmsg "Expecting ',' delimiter" idx
      else parse_array_loop n' s (skip_ws s (S idx)) rval
    | StopIteration i => StopIteration i
    | Errmsg m p => Errmsg m p
    | Exhausted => Exhausted
    end
  end.

Definition parse_array (s : string) (idx : nat) : scan_result pyval :=
  (* skip whitespace after [ *)
  let idx := skip_ws s idx in
  (* only loop if the array is non-empty *)
  if char_is s idx "]" then Scanned (PList []) (idx + 1)
  else parse_array_loop (S (String.length s)) s idx [].

End Containers.

(** [s[idx : idx + len(lit)] == lit] *)
Definition at_literal (s : string) (idx : nat) (lit : string) : bool :=
  String.eqb (substring idx (String.length lit) s) lit.

(** [scan_once(s, idx)]; [fuel] bounds the nesting depth. *)
Fixpoint scan_once (fuel : nat) (s : string) (idx : nat) : scan_result pyval :=
  match fuel with
  | O => Exhausted
  | S fuel' =>
    match char_at s idx with
    | None => StopIteration idx
    | Some c =>
      if Ascii.eqb c quote then
        match scanstring s (idx + 1) with
        | Scanned v next => Scanned (PStr v) next
        | StopIteration i => StopIteration i
        | Errmsg m p => Errmsg m p
        | Exhausted => Exhausted
        end
      else if Ascii.eqb c "{" then parse_object (scan_once fuel') s (idx + 1)
      else if Ascii.eqb c "[" then parse_array (scan_once fuel') s (idx + 1)
      else if at_literal s idx "null" then Scanned PNone (idx + 4)
      else if at_literal s idx "true" then Scanned (PBool true) (idx + 4)
      else if at_literal s idx "false" then Scanned (PBool false) (idx + 5)
      else if at_literal s idx "NaN" then Scanned (PFloat "NaN") (idx + 3)
      else if at_literal s idx "Infinity" then Scanned (PFloat "Infinity") (idx + 8)
      else if at_literal s idx "-Infinity" then Scanned (PFloat "-Infinity") (idx + 9)
      else match_number s idx
    end
  end.

(** A scanner result that respects positions: the fuel was enough and,
    when a term was scanned, the scan stopped at or after the index it
    started from. *)
Definition advances {A : Type} (idx : nat) (r : scan_result A) : Prop :=
  match r with
  | Scanned _ next => idx <= next
  | Exhausted => False
  | _ => True
  end.

(** *** [raw_decode], [decode] and [loads] *)

Definition recursion_message : string :=
  "maximum recursion depth exceeded while decoding a JSON object from a unicode string".

(** [JSONDecoder.raw_decode]: a [StopIteration] becomes
    [JSONDecodeError("Expecting value", s, err.value)].  The fuel given
    here is never used up ([JsonFacts.raw_decode_raises] below), so the
    last case does not occur. *)
Definition raw_decode (s : string) (idx : nat) : py (pyval * nat) :=
  match scan_once (S (String.length s)) s idx with
  | Scanned obj end_ => ret (obj, end_)
  | StopIteration i => raise (JSONDecodeError "Expecting value" s i)
  | Errmsg m p => raise (JSONDecodeError m s p)
  | Exhausted => raise (RecursionError recursion_message)
  end.

(** [JSONDecoder.decode] *)
Definition decode (s : string) : py pyval :=
  r <- raw_decode s (skip_ws s 0) ;;
  let end_ := skip_ws s (snd r) in
  if negb (end_ =? String.length s)%nat then
    raise (JSONDecodeError "Extra data" s end_)
  else ret (fst r).

(** U+FEFF in UTF-8 *)
Definition BOM : string :=
  String (byte 239) (String (byte 187) (String (byte 191) EmptyString)).

(** [json.loads(s)] with the default decoder. *)
Definition loads (s : string) : py pyval :=
  if prefix BOM s then
    raise (JSONDecodeError "Unexpected UTF-8 BOM (decode using utf-8-sig)" s 0)
  else decode s.

End Json.

(** ** The program: [class GeminiPreprocessor] *)

Module GeminiPreprocessor.

(** [v.lower()]: only a [str] has the method. *)
Definition py_lower (v : pyval) : py string :=
  match v with
  | PStr s => ret (lower s)
  | _ => raise (AttributeError
                  ("'" ++ type_name v ++ "' object has no attribute 'lower'"))
  end.

(** [v[k] = x] with a string key. *)
Definition py_setitem (v : pyval) (k : string) (x : pyval) : py dict :=
  match v with
  | PDict d => ret (dict_set d k x)
  | PList _ => raise (TypeError "list indices must be integers or slices, not str")
  | _ => raise (TypeError
                  ("'" ++ type_name v ++ "' object does not support item assignment"))
  end.

(** [d.get(k) != s] for a string [s]; an absent key gives [None != s]. *)
Definition py_ne_str (v : option pyval) (s : string) : bool :=
  match v with
  | Some (PStr s') => negb (String.eqb s' s)
  | _ => true
  end.

(** [d[k].append(x)] for a key bound to a list. *)
Definition list_append (d : dict) (k : string) (x : pyval) : dict :=
  match dict_get d k with
  | Some (PList l) => dict_set d k (PList (l ++ [x]))
  | _ => d
  end.

(** Lines 116-117. *)
Definition json_start (result : string) : Z := str_find "{" result.
Definition json_end (result : string) : Z := (str_rfind "}" result + 1)%Z.

(** Line 119. *)
Definition json_str (result : string) : string :=
  py_slice result (json_start result) (json_end result).

(** Lines 115-123: extract JSON from the response. *)
Definition extract_json (result : string) : py pyval :=
  if (json_start result >=? 0)%Z && (json_end result >? 0)%Z then
    Json.loads (json_str result)
  else
    ret (PDict [("error", PStr "Could not extract structured data")]).

(** Line 131: the test of the special case for comparison queries. *)
Definition is_comparison_query (query : string) : bool :=
  str_in "vs" (lower query) || str_in "versus" (lower query) ||
  str_in "or" (lower query) &&
    (str_in "fly" (lower query) || str_in "drive" (lower query)).

(** Lines 130-143: special case handling for comparison queries. *)
Definition comparison_override (query : string) (structured_data : dict) : dict :=
  if is_comparison_query query then
    if py_ne_str (dict_get structured_data "query_type") "transport_comparison" then
      let d := dict_set structured_data "query_type" (PStr "transport_comparison") in
      let d := dict_set d "transport_modes" (PList []) in
      let d := if str_in "fly" (lower query) || str_in "flight" (lower query)
               then list_append d "transport_modes" (PStr "flight") else d in
      let d := if str_in "drive" (lower query) || str_in "car" (lower query)
               then list_append d "transport_modes" (PStr "drive") else d in
      let d := if str_in "train" (lower query)
               then list_append d "transport_modes" (PStr "train") else d in
      let d := if str_in "bus" (lower query)
               then list_append d "transport_modes" (PStr "bus") else d in
      d
    else structured_data
  else structured_data.

(** Lines 145-154: fix airport codes. *)
Definition fix_airport_codes (structured_data : dict) : py dict :=
  origin <- py_lower (dict_get_default structured_data "origin" (PStr EmptyString)) ;;
  d <- (if list_in origin ["sf"; "san francisco"] then
          ret (dict_set structured_data "origin_code" (PStr "SFO"))
        else
          origin <- py_lower
                      (dict_get_default structured_data "origin" (PStr EmptyString)) ;;
          if list_in origin ["fresno"; "fres"] then
            ret (dict_set structured_data "origin_code" (PStr "FAT"))
          else ret structured_data) ;;
  destination <- py_lower (dict_get_default d "destination" (PStr EmptyString)) ;;
  if list_in destination ["fresno"; "fres"] then
    ret (dict_set d "destination_code" (PStr "FAT"))
  else
    destination <- py_lower (dict_get_default d "destination" (PStr EmptyString)) ;;
    if list_in destination ["sf"; "san francisco"] then
      ret (dict_set d "destination_code" (PStr "SFO"))
    else ret d.

(** Lines 111-156, the body of [try].  [llm] is the outcome of
    [self.llm.invoke(messages).content] on this call.  The [context]
    argument of the method is never read and has no counterpart. *)
Definition try_block (llm : py string) (query : string) : py dict :=
  result <- llm ;;
  structured_data <- extract_json result ;;
  structured_data <- py_setitem structured_data "original_query" (PStr query) ;;
  let structured_data := comparison_override query structured_data in
  fix_airport_codes structured_data.

(** Lines 158-164, the handler of [except Exception as e]. *)
Definition handler (query : string) (e : exn) : py dict :=
  ret [("error", PStr (str_exn e));
       ("original_query", PStr query);
       ("query_type", PStr "general")].

(** [preprocess_query(self, query, context=None)] *)
Definition preprocess_query (llm : py string) (query : string) : py dict :=
  catch (try_block llm query) (handler query).

(** [get_optimized_query(self, query, tool_name)] *)
Definition get_optimized_query (llm : py string) (query tool_name : string)
    : py pyval :=
  structured <- preprocess_query llm query ;;
  if dict_contains structured "structured_query" then
    match dict_get structured "structured_query" with
    | Some v => ret v
    | None => raise (KeyError "structured_query")
    end
  else
    (* Fallback to original query if no structured query is available *)
    ret (PStr query).

(** [v.get(k, default)]: only a [dict] has the method among the values a
    decoded reply can hold. *)
Definition py_get (v : pyval) (k : string) (default : pyval) : py pyval :=
  match v with
  | PDict d => ret (dict_get_default d k default)
  | _ => raise (AttributeError
                  ("'" ++ type_name v ++ "' object has no attribute 'get'"))
  end.

(** [extract_travel_info(self, query)], lines 166-184.  The method has no
    handler of its own: what [date_info.get] raises goes to the caller. *)
Definition extract_travel_info (llm : py string) (query : string)
    : py (pyval * pyval * pyval) :=
  structured <- preprocess_query llm query ;;
  let origin := dict_get_default structured "origin" (PStr EmptyString) in
  let destination := dict_get_default structured "destination" (PStr EmptyString) in
  let date_info := dict_get_default structured "date_info" (PDict []) in
  date <- py_get date_info "start_date" (PStr EmptyString) ;;
  ret (origin, destination, date).

End GeminiPreprocessor.
Import GeminiPreprocessor.

(** ** The specification's tables

    Definitions that follow the words of the specification, to be compared
    with what the program computes. *)

Module Spec.

Definition transport_comparison : pyval := PStr "transport_comparison".

(** The trigger of the comparison override: the lowercase query contains
    vs or versus, or contains or together with fly or drive. *)
Definition comparison_trigger (query : string) : Prop :=
  str_in "vs" (lower query) = true \/
  str_in "versus" (lower query) = true \/
  (str_in "or" (lower query) = true /\
   (str_in "fly" (lower query) = true \/ str_in "drive" (lower query) = true)).

(** Keyword to transport mode, in the fixed order of the scan. *)
Definition mode_keywords : list (string * list string) :=
  [("flight", ["fly"; "flight"]);
   ("drive", ["drive"; "car"]);
   ("train", ["train"]);
   ("bus", ["bus"])].

Definition scan_transport_modes (query : string) : list pyval :=
  map (fun m => PStr (fst m))
      (filter (fun m => existsb (fun k => str_in k (lower query)) (snd m))
              mode_keywords).

(** City name to airport code, read case-insensitively; only two cities
    are known. *)
Definition airport_code (city : string) : option string :=
  let c := lower city in
  if String.eqb c "sf" || String.eqb c "san francisco" then Some "SFO"
  else if String.eqb c "fresno" || String.eqb c "fres" then Some "FAT"
  else None.

(** The text of a location field of a mapping: a missing field reads as
    the empty string, a field that is not a string has no text. *)
Definition location_of (d : dict) (k : string) : option string :=
  match dict_get d k with
  | None => Some EmptyString
  | Some (PStr s) => Some s
  | Some _ => None
  end.

(** A code field after the airport-code override: the code of the city
    when the table knows it, else the field as it was. *)
Definition code_field (city : string) (before : option pyval) : option pyval :=
  match airport_code city with
  | Some c => Some (PStr c)
  | None => before
  end.

(** The airport-code override on one field [k] of a mapping, by the
    table: the code is written when the city is known. *)
Definition set_code (k city : string) (d : dict) : dict :=
  match airport_code city with
  | Some c => dict_set d k (PStr c)
  | None => d
  end.

(** The mapping of the catch-all handler. *)
Definition degraded (message query : string) : dict :=
  [("error", PStr message);
   ("original_query", PStr query);
   ("query_type", PStr "general")].

End Spec.
Import Spec.

(** ** Shapes of the outcomes

    Messages, key sets and mappings read off the source, used to state
    what the methods return and raise. *)

Module Outcome.

(** The message of the [AttributeError] for a method a value lacks. *)
Definition no_attribute (v : pyval) (attr : string) : string :=
  "'" ++ type_name v ++ "' object has no attribute '" ++ attr ++ "'".

(** A value that is not a string, and one that is not a mapping. *)
Definition not_str (v : pyval) : Prop := forall s, v <> PStr s.
Definition not_dict (v : pyval) : Prop := forall m, v <> PDict m.

(** The keys the post-processing of [preprocess_query] writes. *)
Definition written_keys : list string :=
  ["original_query"; "query_type"; "transport_modes";
   "origin_code"; "destination_code"].

(** The keywords of the transport-mode scan. *)
Definition mode_words : list string :=
  ["fly"; "flight"; "drive"; "car"; "train"; "bus"].

(** The mapping of the else branch of line 122, with the query added. *)
Definition unextracted (query : string) : dict :=
  [("error", PStr "Could not extract structured data");
   ("original_query", PStr query)].

End Outcome.
Import Outcome.

(** ** Example replies and queries *)

(** The worked examples of the system prompt (lines 77-98), as replies. *)
Definition flight_reply : string :=
  dq "{'query_type': 'flight', 'origin': 'New York', 'destination': 'Paris', 'date_info': {'start_date': '2025-05-10', 'end_date': '2025-05-12', 'duration': '2'}, 'preferences': [], 'structured_query': 'flights from New York to Paris departing May 10, 2025'}".

Definition comparison_reply : string :=
  dq "{'query_type': 'transport_comparison', 'origin': 'San Francisco', 'destination': 'Yosemite', 'date_info': {'start_date': '', 'end_date': '', 'duration': ''}, 'preferences': [], 'structured_query': 'comparison of driving vs flying from San Francisco to Yosemite', 'transport_modes': ['drive', 'flight']}".

Definition flight_query : string :=
  "I want to fly to Paris from New York next weekend".

Definition comparison_query : string :=
  "Should I drive or fly from San Francisco to Yosemite?".

(** ** Facts about strings *)

Module PyStrFacts.

Lemma prefix_single (c a : ascii) (r : string) :
  prefix (String c EmptyString) (String a r) = Ascii.eqb a c.
Proof.
  simpl. destruct (ascii_dec c a) as [->|Hne].
  - rewrite Ascii.eqb_refl. destruct r; reflexivity.
  - symmetry. apply Ascii.eqb_neq. congruence.
Qed.

Lemma str_in_single_cons (c a : ascii) (r : string) :
  str_in (String c EmptyString) (String a r) =
  Ascii.eqb a c || str_in (String c EmptyString) r.
Proof.
  change (str_in (String c EmptyString) (String a r))
    with (prefix (String c EmptyString) (String a r)
          || str_in (String c EmptyString) r).
  now rewrite prefix_single.
Qed.

Lemma str_find_absent (c : ascii) (s : string) :
  str_in (String c EmptyString) s = false -> str_find c s = (-1)%Z.
Proof.
  induction s as [|a r IH]; intros H; [reflexivity|].
  rewrite str_in_single_cons in H. apply orb_false_iff in H as [Ha Hr].
  simpl. rewrite Ha, (IH Hr). reflexivity.
Qed.

Lemma str_rfind_absent (c : ascii) (s : string) :
  str_in (String c EmptyString) s = false -> str_rfind c s = (-1)%Z.
Proof.
  induction s as [|a r IH]; intros H; [reflexivity|].
  rewrite str_in_single_cons in H. apply orb_false_iff in H as [Ha Hr].
  simpl. rewrite Ha, (IH Hr). reflexivity.
Qed.

Lemma str_find_app (c : ascii) (pre r : string) :
  str_in (String c EmptyString) pre = false ->
  str_find c (pre ++ String c r) = Z.of_nat (String.length pre).
Proof.
  induction pre as [|a p IH]; intros H.
  - simpl. now rewrite Ascii.eqb_refl.
  - rewrite str_in_single_cons in H. apply orb_false_iff in H as [Ha Hp].
    cbn [append str_find String.length]. rewrite Ha, (IH Hp).
    destruct (Z.ltb_spec (Z.of_nat (String.length p)) 0); lia.
Qed.

Lemma str_rfind_app (c : ascii) (s post : string) :
  str_in (String c EmptyString) post = false ->
  str_rfind c (s ++ String c post) = Z.of_nat (String.length s).
Proof.
  intros H. induction s as [|a p IH].
  - simpl. rewrite (str_rfind_absent _ _ H). simpl.
    now rewrite Ascii.eqb_refl.
  - cbn [append str_rfind String.length]. rewrite IH.
    destruct (Z.leb_spec 0 (Z.of_nat (String.length p))); lia.
Qed.

Lemma length_app (a b : string) :
  String.length (a ++ b) = String.length a + String.length b.
Proof. induction a as [|c a IH]; simpl; [reflexivity | now rewrite IH]. Qed.

Lemma substring_skip (pre s : string) (n : nat) :
  substring (String.length pre) n (pre ++ s) = substring 0 n s.
Proof. induction pre as [|c p IH]; simpl; [reflexivity | exact IH]. Qed.

Lemma substring_take (mid post : string) :
  substring 0 (String.length mid) (mid ++ post) = mid.
Proof.
  induction mid as [|c m IH]; simpl.
  - destruct post; reflexivity.
  - now rewrite IH.
Qed.

(** Slicing out the middle of three pieces. *)
Lemma py_slice_middle (pre mid post : string) :
  py_slice (pre ++ mid ++ post)
           (Z.of_nat (String.length pre))
           (Z.of_nat (String.length pre + String.length mid)) = mid.
Proof.
  unfold py_slice, clamp_index. rewrite !length_app.
  destruct (Z.ltb_spec (Z.of_nat (String.length pre)) 0); [lia|].
  destruct (Z.ltb_spec (Z.of_nat (String.length pre + String.length mid)) 0); [lia|].
  rewrite !Z.min_l by lia.
  replace (Z.to_nat (Z.of_nat (String.length pre + String.length mid)
                     - Z.of_nat (String.length pre)))
    with (String.length mid) by lia.
  rewrite Nat2Z.id, substring_skip. apply substring_take.
Qed.

Lemma append_empty_r (s : string) : s ++ EmptyString = s.
Proof. induction s as [|c s IH]; simpl; [reflexivity | now rewrite IH]. Qed.

Lemma append_assoc (a b c : string) : (a ++ b) ++ c = a ++ (b ++ c).
Proof. induction a as [|x a IH]; simpl; [reflexivity | now rewrite IH]. Qed.

(** Two texts that end in different characters differ. *)
Lemma last_char_differs (a b : string) (x y : ascii) :
  x <> y -> a ++ String x EmptyString <> b ++ String y EmptyString.
Proof.
  intros Hxy. revert b. induction a as [|c a IH]; intros [|d b] H; simpl in H.
  - congruence.
  - injection H as _ H. destruct b; discriminate.
  - injection H as _ H. destruct a; discriminate.
  - injection H as _ H. exact (IH _ H).
Qed.

Lemma get_some_lt (s : string) (i : nat) (c : ascii) :
  String.get i s = Some c -> i < String.length s.
Proof.
  revert i. induction s as [|a r IH]; intros [|i] H; simpl in *;
    try discriminate; try lia.
  apply IH in H. lia.
Qed.

Lemma str_find_get (c : ascii) (s : string) :
  (0 <= str_find c s)%Z ->
  String.get (Z.to_nat (str_find c s)) s = Some c.
Proof.
  induction s as [|a r IH]; simpl; [lia|].
  destruct (Ascii.eqb a c) eqn:E.
  - intros _. apply Ascii.eqb_eq in E. now subst.
  - destruct (Z.ltb_spec (str_find c r) 0); [lia|]. intros _.
    rewrite Z2Nat.inj_add by lia. rewrite Nat.add_1_r. now apply IH.
Qed.

Lemma substring_empty (n : nat) (s : string) : substring n 0 s = EmptyString.
Proof.
  revert s. induction n as [|n IH]; intros [|a r]; simpl; trivial.
Qed.

Lemma substring_head (n m : nat) (s : string) (c : ascii) :
  String.get n s = Some c ->
  exists r, substring n (S m) s = String c r.
Proof.
  revert s. induction n as [|n IH]; intros [|a r] H; simpl in *; try discriminate.
  - injection H as ->. eauto.
  - now apply IH.
Qed.

End PyStrFacts.

(** ** Facts about dictionaries *)

Module DictFacts.

Lemma dict_get_set_eq (d : dict) (k : string) (v : pyval) :
  dict_get (dict_set d k v) k = Some v.
Proof.
  induction d as [|[k' v'] r IH]; simpl.
  - now rewrite String.eqb_refl.
  - destruct (String.eqb k' k) eqn:E; simpl; rewrite E; [reflexivity | exact IH].
Qed.

Lemma dict_get_set_neq (d : dict) (k k' : string) (v : pyval) :
  k <> k' -> dict_get (dict_set d k v) k' = dict_get d k'.
Proof.
  intros Hne. induction d as [|[k0 v0] r IH]; simpl.
  - apply String.eqb_neq in Hne. now rewrite Hne.
  - destruct (String.eqb k0 k) eqn:E; simpl.
    + apply String.eqb_eq in E. subst k0.
      apply String.eqb_neq in Hne. now rewrite Hne.
    + now rewrite IH.
Qed.

Lemma dict_set_set (d : dict) (k : string) (v w : pyval) :
  dict_set (dict_set d k v) k w = dict_set d k w.
Proof.
  induction d as [|[k0 v0] r IH]; simpl.
  - now rewrite String.eqb_refl.
  - destruct (String.eqb k0 k) eqn:E; simpl; rewrite E; [reflexivity | now rewrite IH].
Qed.

Lemma location_of_set_neq (d : dict) (k k' : string) (v : pyval) :
  k <> k' -> location_of (dict_set d k v) k' = location_of d k'.
Proof. intros H. unfold location_of. now rewrite dict_get_set_neq. Qed.

End DictFacts.

(** ** Facts about the steps of [preprocess_query] *)

Module StepFacts.
Import PyStrFacts DictFacts.

Ltac neq_keys := let H := fresh in intros H; discriminate H.

(** *** The comparison override *)

Lemma is_comparison_query_trigger (query : string) :
  is_comparison_query query = true <-> comparison_trigger query.
Proof.
  unfold is_comparison_query, comparison_trigger.
  rewrite !orb_true_iff, andb_true_iff, orb_true_iff. tauto.
Qed.

Lemma list_append_set (d : dict) (k : string) (l : list pyval) (x : pyval) :
  list_append (dict_set d k (PList l)) k x = dict_set d k (PList (l ++ [x])).
Proof.
  unfold list_append. rewrite dict_get_set_eq. apply dict_set_set.
Qed.

Lemma comparison_override_idle (query : string) (d : dict) :
  is_comparison_query query = false -> comparison_override query d = d.
Proof. intros H. unfold comparison_override. now rewrite H. Qed.

Lemma comparison_override_kept (query : string) (d : dict) :
  dict_get d "query_type" = Some transport_comparison ->
  comparison_override query d = d.
Proof.
  intros H. unfold comparison_override. rewrite H. simpl.
  now destruct (is_comparison_query query).
Qed.

(** When the override fires, it writes the two fields, and the list it
    appends to is the one the keyword table gives. *)
Lemma comparison_override_fired (query : string) (d : dict) :
  is_comparison_query query = true ->
  py_ne_str (dict_get d "query_type") "transport_comparison" = true ->
  comparison_override query d =
  dict_set (dict_set d "query_type" transport_comparison)
           "transport_modes" (PList (scan_transport_modes query)).
Proof.
  intros Hq Hne. unfold comparison_override. rewrite Hq, Hne.
  unfold scan_transport_modes, mode_keywords. cbn [filter existsb snd].
  rewrite !orb_false_r.
  destruct (str_in "fly" (lower query) || str_in "flight" (lower query));
    destruct (str_in "drive" (lower query) || str_in "car" (lower query));
    destruct (str_in "train" (lower query));
    destruct (str_in "bus" (lower query));
    rewrite ?list_append_set; reflexivity.
Qed.

Lemma py_ne_str_false (v : option pyval) (s : string) :
  py_ne_str v s = false -> v = Some (PStr s).
Proof.
  destruct v as [[]|]; simpl; try discriminate.
  intros H. apply negb_false_iff, String.eqb_eq in H. now subst.
Qed.

Lemma py_ne_str_true (v : option pyval) (s : string) :
  v <> Some (PStr s) -> py_ne_str v s = true.
Proof.
  intros H. destruct (py_ne_str v s) eqn:E; [reflexivity|].
  now apply py_ne_str_false in E.
Qed.

Lemma comparison_override_query_type (query : string) (d : dict) :
  is_comparison_query query = true ->
  dict_get (comparison_override query d) "query_type" = Some transport_comparison.
Proof.
  intros Hq.
  destruct (py_ne_str (dict_get d "query_type") "transport_comparison") eqn:E.
  - rewrite (comparison_override_fired _ _ Hq E).
    rewrite dict_get_set_neq by neq_keys. apply dict_get_set_eq.
  - apply py_ne_str_false in E. now rewrite (comparison_override_kept _ _ E).
Qed.

Lemma comparison_override_other (query : string) (d : dict) (k : string) :
  k <> "query_type" -> k <> "transport_modes" ->
  dict_get (comparison_override query d) k = dict_get d k.
Proof.
  intros H1 H2.
  destruct (is_comparison_query query) eqn:Hq;
    [|now rewrite comparison_override_idle].
  destruct (py_ne_str (dict_get d "query_type") "transport_comparison") eqn:E.
  - rewrite (comparison_override_fired _ _ Hq E).
    rewrite !dict_get_set_neq by congruence. reflexivity.
  - apply py_ne_str_false in E. now rewrite (comparison_override_kept _ _ E).
Qed.

(** *** The airport codes *)

Lemma py_lower_location (d : dict) (k s : string) :
  location_of d k = Some s ->
  py_lower (dict_get_default d k (PStr EmptyString)) = inr (lower s).
Proof.
  unfold location_of, dict_get_default.
  destruct (dict_get d k) as [[]|]; intros H; inversion H; reflexivity.
Qed.

Lemma py_lower_no_location (d : dict) (k : string) :
  location_of d k = None ->
  exists e, py_lower (dict_get_default d k (PStr EmptyString)) = inl e.
Proof.
  unfold location_of, dict_get_default.
  destruct (dict_get d k) as [[]|]; intros H; try discriminate; eexists; reflexivity.
Qed.

(** The two city lists of the program are the two rows of the table. *)
Lemma airport_code_sfo (s : string) :
  list_in (lower s) ["sf"; "san francisco"] = true -> airport_code s = Some "SFO".
Proof.
  unfold airport_code, list_in. cbn [existsb]. rewrite orb_false_r.
  now intros ->.
Qed.

Lemma airport_code_fat (s : string) :
  list_in (lower s) ["fresno"; "fres"] = true -> airport_code s = Some "FAT".
Proof.
  unfold airport_code, list_in. cbn [existsb]. rewrite orb_false_r.
  intros H. rewrite H.
  apply orb_true_iff in H as [H|H]; apply String.eqb_eq in H; rewrite H; reflexivity.
Qed.

Lemma airport_code_none (s : string) :
  list_in (lower s) ["sf"; "san francisco"] = false ->
  list_in (lower s) ["fresno"; "fres"] = false -> airport_code s = None.
Proof.
  unfold airport_code, list_in. cbn [existsb]. rewrite !orb_false_r.
  now intros -> ->.
Qed.

(** The table reads a city through [lower] only: spellings that differ in
    the case of their letters get the same code. *)
Lemma lower_char_idem (c : ascii) : lower_char (lower_char c) = lower_char c.
Proof.
  destruct c as [b0 b1 b2 b3 b4 b5 b6 b7].
  destruct b0, b1, b2, b3, b4, b5, b6, b7; reflexivity.
Qed.

Lemma lower_idem (s : string) : lower (lower s) = lower s.
Proof.
  induction s as [|c r IH]; simpl; [reflexivity|].
  now rewrite lower_char_idem, IH.
Qed.

Lemma airport_code_case (s t : string) :
  lower s = lower t -> airport_code s = airport_code t.
Proof. unfold airport_code. now intros ->. Qed.

Lemma airport_code_lower (s : string) : airport_code (lower s) = airport_code s.
Proof. apply airport_code_case, lower_idem. Qed.

Lemma fix_airport_codes_table (d : dict) (o dst : string) :
  location_of d "origin" = Some o ->
  location_of d "destination" = Some dst ->
  fix_airport_codes d =
  inr (set_code "destination_code" dst (set_code "origin_code" o d)).
Proof.
  intros Ho Hd. unfold fix_airport_codes.
  rewrite (py_lower_location _ _ _ Ho). cbn [bind Monad_either].
  assert (Hd' : forall v, location_of (dict_set d "origin_code" v) "destination"
                          = Some dst)
    by (intros v; rewrite location_of_set_neq by neq_keys; exact Hd).
  unfold set_code at 2.
  destruct (list_in (lower o) ["sf"; "san francisco"]) eqn:E1.
  - rewrite (airport_code_sfo _ E1). cbn [ret bind Monad_either].
    rewrite (py_lower_location _ _ _ (Hd' _)). cbn [bind Monad_either].
    unfold set_code.
    destruct (list_in (lower dst) ["fresno"; "fres"]) eqn:E2.
    + now rewrite (airport_code_fat _ E2).
    + destruct (list_in (lower dst) ["sf"; "san francisco"]) eqn:E3.
      * now rewrite (airport_code_sfo _ E3).
      * now rewrite (airport_code_none _ E3 E2).
  - destruct (list_in (lower o) ["fresno"; "fres"]) eqn:E1'.
    + rewrite (airport_code_fat _ E1'). cbn [ret bind Monad_either].
      rewrite (py_lower_location _ _ _ (Hd' _)). cbn [bind Monad_either].
      unfold set_code.
      destruct (list_in (lower dst) ["fresno"; "fres"]) eqn:E2.
      * now rewrite (airport_code_fat _ E2).
      * destruct (list_in (lower dst) ["sf"; "san francisco"]) eqn:E3.
        -- now rewrite (airport_code_sfo _ E3).
        -- now rewrite (airport_code_none _ E3 E2).
    + rewrite (airport_code_none _ E1 E1'). cbn [ret bind Monad_either].
      rewrite (py_lower_location _ _ _ Hd). cbn [bind Monad_either].
      unfold set_code.
      destruct (list_in (lower dst) ["fresno"; "fres"]) eqn:E2.
      * now rewrite (airport_code_fat _ E2).
      * destruct (list_in (lower dst) ["sf"; "san francisco"]) eqn:E3.
        -- now rewrite (airport_code_sfo _ E3).
        -- now rewrite (airport_code_none _ E3 E2).
Qed.

(** A location that is not a string makes the override raise. *)
Lemma fix_airport_codes_raises (d : dict) :
  location_of d "origin" = None \/
  (exists o, location_of d "origin" = Some o) /\ location_of d "destination" = None ->
  exists e, fix_airport_codes d = inl e.
Proof.
  intros [Ho | [[o Ho] Hd]]; unfold fix_airport_codes.
  - destruct (py_lower_no_location _ _ Ho) as [e ->]. eexists; reflexivity.
  - rewrite (py_lower_location _ _ _ Ho). cbn [bind Monad_either].
    assert (Hd' : forall v, location_of (dict_set d "origin_code" v) "destination"
                            = None)
      by (intros v; rewrite location_of_set_neq by neq_keys; exact Hd).
    destruct (list_in (lower o) ["sf"; "san francisco"]).
    + cbn [ret bind Monad_either].
      destruct (py_lower_no_location _ _ (Hd' (PStr "SFO"))) as [e ->].
      eexists; reflexivity.
    + destruct (list_in (lower o) ["fresno"; "fres"]); cbn [ret bind Monad_either].
      * destruct (py_lower_no_location _ _ (Hd' (PStr "FAT"))) as [e ->].
        eexists; reflexivity.
      * destruct (py_lower_no_location _ _ Hd) as [e ->]. eexists; reflexivity.
Qed.

Lemma fix_airport_codes_locations (d d' : dict) :
  fix_airport_codes d = inr d' ->
  exists o dst, location_of d "origin" = Some o /\
                location_of d "destination" = Some dst.
Proof.
  intros H.
  destruct (location_of d "origin") as [o|] eqn:Ho.
  - destruct (location_of d "destination") as [dst|] eqn:Hd.
    + now exists o, dst.
    + destruct (fix_airport_codes_raises d) as [e He]; [|congruence].
      right. split; [now exists o | exact Hd].
  - destruct (fix_airport_codes_raises d) as [e He]; [now left | congruence].
Qed.

Lemma set_code_other (k city k' : string) (d : dict) :
  k <> k' -> dict_get (set_code k city d) k' = dict_get d k'.
Proof.
  intros H. unfold set_code. destruct (airport_code city); [|reflexivity].
  now apply dict_get_set_neq.
Qed.

Lemma set_code_field (k city : string) (d : dict) :
  dict_get (set_code k city d) k = code_field city (dict_get d k).
Proof.
  unfold set_code, code_field. destruct (airport_code city); [|reflexivity].
  apply dict_get_set_eq.
Qed.

Lemma fix_airport_codes_other (d d' : dict) (k : string) :
  fix_airport_codes d = inr d' ->
  k <> "origin_code" -> k <> "destination_code" ->
  dict_get d' k = dict_get d k.
Proof.
  intros H H1 H2.
  destruct (fix_airport_codes_locations _ _ H) as (o & dst & Ho & Hd).
  rewrite (fix_airport_codes_table _ _ _ Ho Hd) in H. injection H as <-.
  rewrite !set_code_other by congruence. reflexivity.
Qed.

End StepFacts.

(** ** Facts about the decoder: the fuel is enough *)

Module JsonFacts.
Import Json PyStrFacts.

Lemma char_is_lt (s : string) (i : nat) (c : ascii) :
  char_is s i c = true -> i < String.length s.
Proof.
  unfold char_is, char_at. destruct (String.get i s) eqn:E; [|discriminate].
  intros _. exact (get_some_lt _ _ _ E).
Qed.

Lemma length_drop (n : nat) (s : string) :
  String.length (drop n s) = String.length s - n.
Proof.
  revert s. induction n as [|n IH]; intros [|a r]; simpl; try lia. apply IH.
Qed.

Lemma skip_while_ge (P : ascii -> bool) (rest : string) (idx : nat) :
  idx <= skip_while P rest idx.
Proof.
  revert idx. induction rest as [|a r IH]; intros idx; simpl; [lia|].
  destruct (P a); [|lia]. specialize (IH (S idx)). lia.
Qed.

Lemma skip_ws_ge (s : string) (idx : nat) : idx <= skip_ws s idx.
Proof. apply skip_while_ge. Qed.

Lemma skip_digits_ge (s : string) (idx : nat) : idx <= skip_digits s idx.
Proof. apply skip_while_ge. Qed.

Lemma advances_weaken {A : Type} (i j : nat) (r : scan_result A) :
  i <= j -> advances j r -> advances i r.
Proof. destruct r; simpl; lia || tauto. Qed.

(** *** The string scanner *)

Lemma scan_chunk_bounds (rest : string) (n : nat) :
  match scan_chunk rest n with
  | AtQuote next | AtBackslash next | AtControl next =>
      n <= next < n + String.length rest
  | AtEnd => True
  end.
Proof.
  revert n. induction rest as [|d r IH]; intros n; simpl; [exact I|].
  destruct (Ascii.eqb d quote); [lia|].
  destruct (Ascii.eqb d "\"); [lia|].
  destruct (nat_of_ascii d <=? 31)%nat; [lia|].
  specialize (IH (S n)). destruct (scan_chunk r (S n)); lia || exact I.
Qed.

Lemma scanstring_loop_advances (fuel : nat) (s : string) (begin end_ : nat)
    (acc : string) :
  String.length s - end_ < fuel ->
  advances end_ (scanstring_loop fuel s begin end_ acc).
Proof.
  revert end_ acc. induction fuel as [|fuel IH]; intros end_ acc Hf; [lia|].
  cbn [scanstring_loop].
  pose proof (scan_chunk_bounds (drop end_ s) end_) as Hb.
  rewrite length_drop in Hb.
  destruct (scan_chunk (drop end_ s) end_) as [next|next|next|];
    try exact I.
  - simpl. lia.
  - assert (Hrec : forall e a, S next < e ->
              advances end_ (scanstring_loop fuel s begin e a)).
    { intros e a He. apply (advances_weaken end_ e); [lia|].
      apply IH. lia. }
    destruct (char_at s (S next)); [|exact I].
    destruct (negb (Ascii.eqb a "u")).
    + destruct (BACKSLASH a); [|exact I]. apply Hrec. lia.
    + destruct (String.length s <=? S (S next) + 4)%nat; [exact I|].
      destruct (hex4 s (S (S next))); [|exact I].
      destruct (is_high_surrogate n && (S (S next) + 4 + 6 <? String.length s)%nat
                && char_is s (S (S next) + 4) "\"
                && char_is s (S (S next) + 4 + 1) "u").
      * destruct (hex4 s (S (S next) + 4 + 2)); [|exact I].
        destruct (is_low_surrogate n0); apply Hrec; lia.
      * apply Hrec. lia.
Qed.

Lemma scanstring_advances (s : string) (end_ : nat) :
  advances end_ (scanstring s end_).
Proof. apply scanstring_loop_advances. lia. Qed.

(** *** The number matcher *)

Lemma match_number_advances (s : string) (start : nat) :
  advances start (match_number s start).
Proof.
  unfold match_number.
  set (idx0 := if char_is s start "-" then S start else start).
  assert (H0 : start <= idx0) by (unfold idx0; destruct (char_is s start "-"); lia).
  destruct (char_at s idx0) as [c|]; [|exact I].
  destruct (negb (is_digit c)); [exact I|].
  set (i1 := if Ascii.eqb c "0" then S idx0 else skip_digits s (S idx0)).
  assert (H1 : idx0 <= i1).
  { unfold i1. destruct (Ascii.eqb c "0"); [lia|].
    pose proof (skip_digits_ge s (S idx0)). lia. }
  set (hf := char_is s i1 "." &&
             match char_at s (i1 + 1) with
             | Some d => is_digit d
             | None => false
             end).
  set (i2 := if hf then skip_digits s (i1 + 2) else i1).
  assert (H2 : i1 <= i2).
  { unfold i2. destruct hf; [|lia].
    pose proof (skip_digits_ge s (i1 + 2)). lia. }
  set (sg := (char_is s (S i2) "-" || char_is s (S i2) "+") &&
             match char_at s (S i2 + 1) with
             | Some _ => true
             | None => false
             end).
  set (i3 := skip_digits s (if sg then S (S i2) else S i2)).
  assert (H3 : i2 <= i3).
  { unfold i3. destruct sg.
    - pose proof (skip_digits_ge s (S (S i2))). lia.
    - pose proof (skip_digits_ge s (S i2)). lia. }
  match goal with
  | |- context [if ?b then i3 else i2] =>
      destruct b; destruct hf; simpl; lia
  end.
Qed.

(** *** The loops and [scan_once] *)

Section Loops.

Variable scan : string -> nat -> scan_result pyval.
Variable s : string.
Variable lo : nat.
Hypothesis scan_advances : forall i, lo <= i -> advances i (scan s i).

Lemma parse_object_loop_advances (n idx : nat) (rval : dict) :
  lo <= idx -> String.length s - idx < n ->
  advances idx (parse_object_loop scan n s idx rval).
Proof.
  revert idx rval. induction n as [|n IH]; intros idx rval Hlo Hn; [lia|].
  cbn [parse_object_loop].
  destruct (char_is s idx quote) eqn:Hq; cbn [negb]; [|exact I].
  apply char_is_lt in Hq.
  pose proof (scanstring_advances s (idx + 1)) as Hk.
  destruct (scanstring s (idx + 1)) as [key next| | |]; try exact I; [|exact Hk].
  simpl in Hk.
  pose proof (skip_ws_ge s next) as H1.
  destruct (char_is s (skip_ws s next) ":"); cbn [negb]; [|exact I].
  pose proof (skip_ws_ge s (S (skip_ws s next))) as H2.
  pose proof (scan_advances (skip_ws s (S (skip_ws s next)))) as Hv.
  destruct (scan s (skip_ws s (S (skip_ws s next)))) as [val next2| | |];
    try exact I; [|apply Hv; lia].
  simpl in Hv. specialize (Hv ltac:(lia)).
  pose proof (skip_ws_ge s next2) as H3.
  destruct (char_is s (skip_ws s next2) "}"); [simpl; lia|].
  destruct (char_is s (skip_ws s next2) ","); cbn [negb]; [|exact I].
  pose proof (skip_ws_ge s (S (skip_ws s next2))) as H4.
  apply (advances_weaken idx (skip_ws s (S (skip_ws s next2)))); [lia|].
  apply IH; lia.
Qed.

Lemma parse_array_loop_advances (n idx : nat) (rval : list pyval) :
  lo <= idx -> String.length s - idx < n ->
  advances idx (parse_array_loop scan n s idx rval).
Proof.
  revert idx rval. induction n as [|n IH]; intros idx rval Hlo Hn; [lia|].
  cbn [parse_array_loop].
  pose proof (scan_advances idx Hlo) as Hv.
  destruct (scan s idx) as [val next| | |]; try exact I; [|exact Hv].
  simpl in Hv.
  pose proof (skip_ws_ge s next) as H1.
  destruct (char_is s (skip_ws s next) "]"); [simpl; lia|].
  destruct (char_is s (skip_ws s next) ",") eqn:Hc; cbn [negb]; [|exact I].
  apply char_is_lt in Hc.
  pose proof (skip_ws_ge s (S (skip_ws s next))) as H2.
  apply (advances_weaken idx (skip_ws s (S (skip_ws s next)))); [lia|].
  apply IH; lia.
Qed.

Lemma parse_object_advances (idx : nat) :
  lo <= idx -> advances idx (parse_object scan s idx).
Proof.
  intros Hlo. unfold parse_object.
  pose proof (skip_ws_ge s idx) as H1.
  destruct (char_is s (skip_ws s idx) "}"); [simpl; lia|].
  apply (advances_weaken idx (skip_ws s idx)); [lia|].
  apply parse_object_loop_advances; lia.
Qed.

Lemma parse_array_advances (idx : nat) :
  lo <= idx -> advances idx (parse_array scan s idx).
Proof.
  intros Hlo. unfold parse_array.
  pose proof (skip_ws_ge s idx) as H1.
  destruct (char_is s (skip_ws s idx) "]"); [simpl; lia|].
  apply (advances_weaken idx (skip_ws s idx)); [lia|].
  apply parse_array_loop_advances; lia.
Qed.

End Loops.

Lemma scan_once_advances (fuel : nat) (s : string) (idx : nat) :
  String.length s - idx < fuel -> advances idx (scan_once fuel s idx).
Proof.
  revert idx. induction fuel as [|fuel IH]; intros idx Hf; [lia|].
  cbn [scan_once].
  destruct (char_at s idx) as [c|] eqn:Hc; [|exact I].
  apply get_some_lt in Hc.
  assert (Hrec : forall i, idx + 1 <= i -> advances i (scan_once fuel s i))
    by (intros i Hi; apply IH; lia).
  destruct (Ascii.eqb c quote).
  { pose proof (scanstring_advances s (idx + 1)) as Hk.
    destruct (scanstring s (idx + 1)); simpl in *; try exact I; lia. }
  destruct (Ascii.eqb c "{").
  { apply (advances_weaken idx (idx + 1)); [lia|].
    now apply (parse_object_advances _ _ (idx + 1)). }
  destruct (Ascii.eqb c "[").
  { apply (advances_weaken idx (idx + 1)); [lia|].
    now apply (parse_array_advances _ _ (idx + 1)). }
  repeat match goal with
         | |- advances _ (if ?b then _ else _) => destruct b; [simpl; lia|]
         end.
  apply match_number_advances.
Qed.

(** [raw_decode] always has fuel to spare: what it raises is a
    [JSONDecodeError]. *)
Lemma raw_decode_raises (s : string) (idx : nat) (e : exn) :
  raw_decode s idx = inl e -> exists msg pos, e = JSONDecodeError msg s pos.
Proof.
  unfold raw_decode.
  pose proof (scan_once_advances (S (String.length s)) s idx ltac:(lia)) as H.
  destruct (scan_once (S (String.length s)) s idx); simpl in H;
    cbn [ret raise Monad_either Exception_either]; intros E;
    try discriminate; try contradiction; injection E as <-; eauto.
Qed.

Lemma loads_raises (s : string) (e : exn) :
  loads s = inl e -> exists msg pos, e = JSONDecodeError msg s pos.
Proof.
  unfold loads, decode.
  destruct (prefix BOM s).
  - intros H. injection H as <-. eauto.
  - destruct (raw_decode s (skip_ws s 0)) as [e'|r] eqn:Er;
      cbn [bind ret raise Monad_either Exception_either].
    + intros H. injection H as <-. exact (raw_decode_raises _ _ _ Er).
    + destruct (negb _); intros H; inversion H. eauto.
Qed.

(** *** A text that starts with a brace decodes to a mapping *)

Lemma parse_object_loop_dict (scan : string -> nat -> scan_result pyval)
    (n : nat) (s : string) (idx : nat) (rval : dict) (v : pyval) (next : nat) :
  parse_object_loop scan n s idx rval = Scanned v next ->
  exists obj, v = PDict obj.
Proof.
  revert idx rval. induction n as [|n IH]; intros idx rval; [discriminate|].
  cbn [parse_object_loop].
  destruct (negb (char_is s idx quote)); [discriminate|].
  destruct (scanstring s (idx + 1)); try discriminate.
  destruct (negb (char_is s (skip_ws s next0) ":")); [discriminate|].
  destruct (scan s (skip_ws s (S (skip_ws s next0)))); try discriminate.
  destruct (char_is s (skip_ws s next1) "}").
  - intros H. injection H as <- _. eauto.
  - destruct (negb (char_is s (skip_ws s next1) ",")); [discriminate|].
    apply IH.
Qed.

Lemma loads_object (r : string) (v : pyval) :
  loads (String "{" r) = inr v -> exists obj, v = PDict obj.
Proof.
  unfold loads, decode, raw_decode.
  destruct (prefix BOM (String "{" r)); [discriminate|].
  change (skip_ws (String "{" r) 0) with 0.
  cbn [scan_once char_at String.get].
  change (Ascii.eqb "{" quote) with false.
  change (Ascii.eqb "{" "{") with true. cbv iota.
  destruct (parse_object _ _ _) as [w next| | |] eqn:Ep;
    cbn [bind ret raise Monad_either Exception_either fst snd];
    try discriminate.
  destruct (negb _); [discriminate|]. intros H. injection H as <-.
  unfold parse_object in Ep.
  destruct (char_is _ _ "}").
  - injection Ep as <- _. eauto.
  - exact (parse_object_loop_dict _ _ _ _ _ _ _ Ep).
Qed.

Lemma loads_empty : loads EmptyString
  = inl (JSONDecodeError "Expecting value" EmptyString 0).
Proof. reflexivity. Qed.

End JsonFacts.

(** ** Facts about [try_block] and the handler *)

Module RunFacts.
Import PyStrFacts DictFacts StepFacts JsonFacts.

Lemma preprocess_query_returned (llm : py string) (query : string) (d : dict) :
  try_block llm query = inr d -> preprocess_query llm query = inr d.
Proof. intros H. unfold preprocess_query. now rewrite H. Qed.

Lemma preprocess_query_raised (llm : py string) (query : string) (e : exn) :
  try_block llm query = inl e ->
  preprocess_query llm query = inr (degraded (str_exn e) query).
Proof. intros H. unfold preprocess_query. now rewrite H. Qed.

(** After a mapping was extracted, the rest of the block is the two
    overrides on that mapping with [original_query] added. *)
Lemma try_block_parsed (text query : string) (obj : dict) :
  extract_json text = inr (PDict obj) ->
  try_block (inr text) query =
  fix_airport_codes
    (comparison_override query (dict_set obj "original_query" (PStr query))).
Proof. intros H. unfold try_block. cbn [bind Monad_either]. now rewrite H. Qed.

Lemma py_setitem_returns (v : pyval) (k : string) (x : pyval) (d : dict) :
  py_setitem v k x = inr d -> exists obj, v = PDict obj /\ d = dict_set obj k x.
Proof.
  destruct v; simpl; intros H; try discriminate.
  injection H as <-. eauto.
Qed.

Lemma try_block_inv (llm : py string) (query : string) (d : dict) :
  try_block llm query = inr d ->
  exists text obj,
    llm = inr text /\ extract_json text = inr (PDict obj) /\
    fix_airport_codes
      (comparison_override query (dict_set obj "original_query" (PStr query)))
    = inr d.
Proof.
  unfold try_block. destruct llm as [e|text]; cbn [bind Monad_either];
    [discriminate|].
  destruct (extract_json text) as [e|v] eqn:Ex; [discriminate|].
  destruct (py_setitem v "original_query" (PStr query)) as [e|d0] eqn:Es;
    [discriminate|].
  apply py_setitem_returns in Es as (obj & -> & ->).
  intros H. now exists text, obj.
Qed.

(** [preprocess_query] returns a mapping on every path. *)
Lemma preprocess_query_total (llm : py string) (query : string) :
  exists d, preprocess_query llm query = inr d.
Proof.
  unfold preprocess_query.
  destruct (try_block llm query) as [e|d]; eexists; reflexivity.
Qed.

(** Every way the block can end. *)
Lemma try_block_cases (llm : py string) (query : string) :
  (exists e, llm = inl e /\ try_block llm query = inl e) \/
  (exists text e,
     llm = inr text /\ extract_json text = inl e /\
     try_block llm query = inl e) \/
  (exists text v e,
     llm = inr text /\ extract_json text = inr v /\
     py_setitem v "original_query" (PStr query) = inl e /\
     try_block llm query = inl e) \/
  (exists text obj,
     llm = inr text /\ extract_json text = inr (PDict obj) /\
     try_block llm query =
     fix_airport_codes
       (comparison_override query (dict_set obj "original_query" (PStr query)))).
Proof.
  destruct llm as [e|text]; [left; eauto|]. right.
  destruct (extract_json text) as [e|v] eqn:Ex.
  - left. exists text, e. repeat split; trivial.
    unfold try_block. cbn [bind Monad_either]. now rewrite Ex.
  - right.
    destruct (py_setitem v "original_query" (PStr query)) as [e|d] eqn:Es.
    + left. exists text, v, e. repeat split; trivial.
      unfold try_block. cbn [bind Monad_either]. now rewrite Ex, Es.
    + right. apply py_setitem_returns in Es as (obj & -> & ->).
      exists text, obj. repeat split; trivial. now apply try_block_parsed.
Qed.

(** The block as a pure pipeline, when both locations have a text. *)
Lemma try_block_table (text query : string) (obj : dict) (o dst : string) :
  extract_json text = inr (PDict obj) ->
  location_of obj "origin" = Some o ->
  location_of obj "destination" = Some dst ->
  try_block (inr text) query =
  inr (set_code "destination_code" dst
         (set_code "origin_code" o
            (comparison_override query
               (dict_set obj "original_query" (PStr query))))).
Proof.
  intros Hx Ho Hd. rewrite (try_block_parsed _ _ _ Hx).
  apply fix_airport_codes_table; unfold location_of;
    rewrite comparison_override_other by neq_keys;
    rewrite dict_get_set_neq by neq_keys; assumption.
Qed.

(** *** Extraction *)

Lemma extract_json_no_open_brace (text : string) :
  str_in "{" text = false ->
  extract_json text =
  inr (PDict [("error", PStr "Could not extract structured data")]).
Proof.
  intros H. unfold extract_json, json_start.
  now rewrite (str_find_absent _ _ H).
Qed.

Lemma extract_json_found (text : string) :
  (0 <= json_start text)%Z -> (0 < json_end text)%Z ->
  extract_json text = Json.loads (json_str text).
Proof.
  intros H1 H2. unfold extract_json.
  destruct (Z.geb_spec (json_start text) 0); [|lia].
  destruct (Z.gtb_spec (json_end text) 0); [|lia].
  reflexivity.
Qed.

Lemma embedded_shape (pre body post : string) :
  pre ++ ("{" ++ body ++ "}") ++ post =
  (pre ++ String "{" body) ++ String "}" post.
Proof.
  rewrite !append_assoc. reflexivity.
Qed.

Lemma json_start_embedded (pre body post : string) :
  str_in "{" pre = false ->
  json_start (pre ++ ("{" ++ body ++ "}") ++ post) = Z.of_nat (String.length pre).
Proof.
  intros H. unfold json_start. rewrite append_assoc. simpl.
  now apply str_find_app.
Qed.

Lemma json_end_embedded (pre body post : string) :
  str_in "}" post = false ->
  json_end (pre ++ ("{" ++ body ++ "}") ++ post) =
  Z.of_nat (String.length pre + String.length ("{" ++ body ++ "}")).
Proof.
  intros H. unfold json_end. rewrite embedded_shape.
  rewrite (str_rfind_app _ _ _ H), !length_app. simpl. lia.
Qed.

Lemma json_str_embedded (pre body post : string) :
  str_in "{" pre = false -> str_in "}" post = false ->
  json_str (pre ++ ("{" ++ body ++ "}") ++ post) = "{" ++ body ++ "}".
Proof.
  intros H1 H2. unfold json_str.
  rewrite (json_start_embedded _ _ _ H1), (json_end_embedded _ _ _ H2).
  apply py_slice_middle.
Qed.

Lemma extract_json_embedded (pre body post : string) :
  str_in "{" pre = false -> str_in "}" post = false ->
  extract_json (pre ++ ("{" ++ body ++ "}") ++ post) =
  Json.loads ("{" ++ body ++ "}").
Proof.
  intros H1 H2. rewrite extract_json_found.
  - now rewrite json_str_embedded.
  - rewrite (json_start_embedded _ _ _ H1). lia.
  - rewrite (json_end_embedded _ _ _ H2). simpl. lia.
Qed.

Lemma extract_json_bare (body : string) :
  extract_json ("{" ++ body ++ "}") = Json.loads ("{" ++ body ++ "}").
Proof.
  pose proof (extract_json_embedded EmptyString body EmptyString
                eq_refl eq_refl) as H.
  rewrite append_empty_r in H. exact H.
Qed.

(** The text handed to the decoder is empty or starts at the brace. *)
Lemma json_str_shape (text : string) :
  (0 <= json_start text)%Z ->
  json_str text = EmptyString \/ exists r, json_str text = String "{" r.
Proof.
  intros H. unfold json_str, py_slice.
  pose proof (str_find_get "{" text H) as Hg.
  pose proof (get_some_lt _ _ _ Hg) as Hl.
  fold (json_start text) in Hg, Hl.
  assert (Ha : clamp_index (Z.of_nat (String.length text)) (json_start text)
               = json_start text).
  { unfold clamp_index. destruct (Z.ltb_spec (json_start text) 0); lia. }
  rewrite Ha.
  destruct (Z.to_nat (clamp_index (Z.of_nat (String.length text)) (json_end text)
                      - json_start text)) as [|m].
  - left. apply substring_empty.
  - right. now apply substring_head.
Qed.

(** What [extract_json] returns is always a mapping. *)
Lemma extract_json_dict (text : string) (v : pyval) :
  extract_json text = inr v -> exists obj, v = PDict obj.
Proof.
  unfold extract_json.
  destruct (Z.geb_spec (json_start text) 0) as [H|H]; cbn [andb].
  - destruct (json_end text >? 0)%Z.
    + destruct (json_str_shape text ltac:(lia)) as [-> | [r ->]].
      * rewrite loads_empty. discriminate.
      * apply loads_object.
    + intros E. injection E as <-. eauto.
  - intros E. injection E as <-. eauto.
Qed.

(** So the assignment of line 128 never raises. *)
Lemma py_setitem_extracted (text query : string) (v : pyval) :
  extract_json text = inr v ->
  exists obj, v = PDict obj /\
    py_setitem v "original_query" (PStr query)
    = inr (dict_set obj "original_query" (PStr query)).
Proof.
  intros H. destruct (extract_json_dict _ _ H) as [obj ->]. now exists obj.
Qed.

(** *** What [json.loads] raises *)

Lemma errmsg_not_marker (msg doc : string) (pos : nat) :
  errmsg msg doc pos <> "Could not extract structured data".
Proof.
  unfold errmsg. rewrite <- !append_assoc.
  change ")" with (String ")" EmptyString).
  change "Could not extract structured data"
    with ("Could not extract structured dat" ++ String "a" EmptyString).
  apply last_char_differs. discriminate.
Qed.

Lemma loads_message_not_marker (s : string) (e : exn) :
  Json.loads s = inl e -> str_exn e <> "Could not extract structured data".
Proof.
  intros H. destruct (loads_raises _ _ H) as (msg & pos & ->).
  apply errmsg_not_marker.
Qed.

End RunFacts.

(** ** The properties of [preprocess_query] and [get_optimized_query] *)

Import PyStrFacts DictFacts StepFacts RunFacts.

(** *** C2 *)

(** C2.  For every query and every behaviour of the remote service, a reply
    text or an exception, [preprocess_query] does not raise: it returns a
    mapping, and the mapping holds [original_query] with the query as it
    was given. *)
Theorem preprocess_query_never_raises (llm : py string) (query : string) :
  exists d, preprocess_query llm query = inr d /\
            dict_get d "original_query" = Some (PStr query).
Proof.
  destruct (try_block llm query) as [e|d] eqn:Ht.
  - exists (degraded (str_exn e) query). split.
    + now apply preprocess_query_raised.
    + reflexivity.
  - exists d. split; [now apply preprocess_query_returned|].
    apply try_block_inv in Ht as (text & obj & _ & _ & Hf).
    rewrite (fix_airport_codes_other _ _ _ Hf) by neq_keys.
    rewrite comparison_override_other by neq_keys.
    apply dict_get_set_eq.
Qed.

(** *** C1 *)

(** C1, as the claim states it, fails: the model may answer with an object
    that has no [query_type], and when the query is no comparison query the
    returned mapping has none either. *)
Lemma query_type_absent_example :
  preprocess_query (inr "{}") "hello" = inr [("original_query", PStr "hello")] /\
  dict_get [("original_query", PStr "hello")] "query_type" = None.
Proof. split; vm_compute; reflexivity. Qed.

(** C1 (amended).  The returned mapping holds [query_type] "general"
    whenever the call ends in the handler; it holds "transport_comparison"
    whenever the comparison test fires on a run that does not raise; and
    when a JSON object was parsed between the braces, the test does not
    fire and nothing raises, it holds the [query_type] of that object as
    the model gave it, which may be absent or empty. *)
Theorem query_type_by_outcome (llm : py string) (query : string) :
  (forall e, try_block llm query = inl e ->
     exists d, preprocess_query llm query = inr d /\
               dict_get d "query_type" = Some (PStr "general")) /\
  (forall d, try_block llm query = inr d ->
     is_comparison_query query = true ->
     preprocess_query llm query = inr d /\
     dict_get d "query_type" = Some transport_comparison) /\
  (forall text obj d,
     llm = inr text ->
     (0 <= json_start text)%Z -> (0 < json_end text)%Z ->
     Json.loads (json_str text) = inr (PDict obj) ->
     try_block llm query = inr d ->
     is_comparison_query query = false ->
     preprocess_query llm query = inr d /\
     dict_get d "query_type" = dict_get obj "query_type").
Proof.
  split; [|split].
  - intros e He. exists (degraded (str_exn e) query).
    split; [now apply preprocess_query_raised | reflexivity].
  - intros d Hd Hq. split; [now apply preprocess_query_returned|].
    apply try_block_inv in Hd as (text & obj & _ & _ & Hf).
    rewrite (fix_airport_codes_other _ _ _ Hf) by neq_keys.
    now apply comparison_override_query_type.
  - intros text obj d -> H1 H2 Hl Hd Hq.
    split; [now apply preprocess_query_returned|].
    assert (Hx : extract_json text = inr (PDict obj))
      by (rewrite extract_json_found by assumption; exact Hl).
    rewrite (try_block_parsed _ _ _ Hx) in Hd.
    rewrite (fix_airport_codes_other _ _ _ Hd) by neq_keys.
    rewrite comparison_override_idle by assumption.
    now rewrite dict_get_set_neq by neq_keys.
Qed.

Lemma query_type_by_outcome_witness :
  (exists d, preprocess_query (inl (OtherError "TimeoutError" "timed out")) "hello"
             = inr d /\
             dict_get d "query_type" = Some (PStr "general")) /\
  (preprocess_query (inr "no json") "train vs bus"
   = inr [("error", PStr "Could not extract structured data");
          ("original_query", PStr "train vs bus");
          ("query_type", PStr "transport_comparison");
          ("transport_modes", PList [PStr "train"; PStr "bus"])] /\
   dict_get [("error", PStr "Could not extract structured data");
             ("original_query", PStr "train vs bus");
             ("query_type", PStr "transport_comparison");
             ("transport_modes", PList [PStr "train"; PStr "bus"])] "query_type"
   = Some transport_comparison) /\
  (preprocess_query (inr (dq "{'query_type': 'poi'}")) "museums in Rome"
   = inr [("query_type", PStr "poi"); ("original_query", PStr "museums in Rome")] /\
   dict_get [("query_type", PStr "poi"); ("original_query", PStr "museums in Rome")]
            "query_type"
   = dict_get [("query_type", PStr "poi")] "query_type").
Proof.
  split; [|split].
  - apply (proj1 (query_type_by_outcome _ _)
             (OtherError "TimeoutError" "timed out")).
    reflexivity.
  - apply (proj1 (proj2 (query_type_by_outcome (inr "no json") "train vs bus")));
      vm_compute; reflexivity.
  - apply (proj2 (proj2 (query_type_by_outcome
                           (inr (dq "{'query_type': 'poi'}")) "museums in Rome"))
             (dq "{'query_type': 'poi'}"));
      vm_compute; reflexivity || (intro; discriminate).
Defined.

(** *** C3 *)

(** C3, as the claim states it, fails: with malformed text between the
    braces the error field is the message of the decoder. *)
Lemma malformed_json_example :
  (0 <= str_find "{" "{not json}" < str_rfind "}" "{not json}")%Z /\
  preprocess_query (inr "{not json}") "hello" =
  inr [("error", PStr "Expecting property name enclosed in double quotes: line 1 column 2 (char 1)");
       ("original_query", PStr "hello");
       ("query_type", PStr "general")].
Proof. split; [vm_compute; split; discriminate || reflexivity | vm_compute; reflexivity]. Qed.

(** C3 (amended).  For every reply in which a [{] and a later [}] are found
    but the text from the one to the other is malformed JSON,
    [preprocess_query] returns the mapping of the handler: its error field
    is the message of the exception the decoder raised, which is never the
    string "Could not extract structured data", and its [query_type] is
    "general". *)
Theorem malformed_json_error_message (text query : string) (e : exn) :
  (0 <= str_find "{" text < str_rfind "}" text)%Z ->
  Json.loads (json_str text) = inl e ->
  preprocess_query (inr text) query = inr (degraded (str_exn e) query) /\
  str_exn e <> "Could not extract structured data".
Proof.
  intros Hb Hl. split; [|exact (loads_message_not_marker _ _ Hl)].
  apply preprocess_query_raised. unfold try_block. cbn [bind Monad_either].
  rewrite extract_json_found, Hl; unfold json_start, json_end; [reflexivity|lia..].
Qed.

Lemma malformed_json_error_message_witness :
  preprocess_query (inr "{not json}") "hello" =
  inr (degraded
         (str_exn (JSONDecodeError
                     "Expecting property name enclosed in double quotes"
                     "{not json}" 1))
         "hello") /\
  str_exn (JSONDecodeError "Expecting property name enclosed in double quotes"
                           "{not json}" 1)
  <> "Could not extract structured data".
Proof.
  apply (malformed_json_error_message "{not json}" "hello").
  - vm_compute. split; discriminate || reflexivity.
  - vm_compute. reflexivity.
Defined.

(** *** C8 *)

(** C8.  For every reply text without a [{], the returned mapping holds
    the field [error] with the value "Could not extract structured data". *)
Theorem no_open_brace_error (text query : string) :
  str_in "{" text = false ->
  exists d, preprocess_query (inr text) query = inr d /\
            dict_get d "error" = Some (PStr "Could not extract structured data").
Proof.
  intros H. apply extract_json_no_open_brace in H.
  eexists. split.
  - apply preprocess_query_returned.
    now apply (try_block_table _ _ _ EmptyString EmptyString H).
  - unfold set_code. cbn [airport_code lower String.eqb orb].
    rewrite comparison_override_other by neq_keys. reflexivity.
Qed.

Lemma no_open_brace_error_witness :
  exists d, preprocess_query (inr "Sorry, I cannot help with that.") "hello" = inr d /\
            dict_get d "error" = Some (PStr "Could not extract structured data").
Proof.
  apply (no_open_brace_error "Sorry, I cannot help with that." "hello").
  vm_compute. reflexivity.
Defined.

(** *** C9 *)

(** C9.  For every query and every tool name, [get_optimized_query]
    returns the [structured_query] field of the mapping [preprocess_query]
    returns when the key is there, and the query itself otherwise; the tool
    name has no influence. *)
Theorem get_optimized_query_result (llm : py string) (query tool_name : string) :
  exists structured,
    preprocess_query llm query = inr structured /\
    get_optimized_query llm query tool_name =
      inr (match dict_get structured "structured_query" with
           | Some v => v
           | None => PStr query
           end) /\
    forall other_tool,
      get_optimized_query llm query other_tool =
      get_optimized_query llm query tool_name.
Proof.
  destruct (preprocess_query_total llm query) as (d & Hd).
  exists d. split; [exact Hd|]. split; [|reflexivity].
  unfold get_optimized_query, dict_contains. rewrite Hd. cbn [bind Monad_either].
  destruct (dict_get d "structured_query"); reflexivity.
Qed.

(** *** C4 *)

(** C4, as the claim states it, fails: on the comparison query of the
    system prompt, answered with the reply the prompt itself gives for it,
    [transport_modes] is left as the model listed it, drive before flight,
    and is not recomputed by the keyword scan. *)
Lemma comparison_modes_kept_example :
  comparison_trigger comparison_query /\
  scan_transport_modes comparison_query = [PStr "flight"; PStr "drive"] /\
  exists d, preprocess_query (inr comparison_reply) comparison_query = inr d /\
            dict_get d "query_type" = Some transport_comparison /\
            dict_get d "transport_modes" = Some (PList [PStr "drive"; PStr "flight"]).
Proof.
  split; [|split].
  - right; right. split; [|left]; vm_compute; reflexivity.
  - vm_compute; reflexivity.
  - eexists. split; [vm_compute; reflexivity|]. split; vm_compute; reflexivity.
Qed.

(** C4 (amended).  For every query whose lowercase text contains vs or
    versus, or contains or together with fly or drive, and every run that
    does not raise, the returned mapping has [query_type]
    "transport_comparison".  When the extracted mapping had another
    [query_type] or none, [transport_modes] is recomputed by the keyword
    scan in the fixed order flight, drive, train, bus; when it already had
    "transport_comparison", [transport_modes] is left as extracted. *)
Theorem comparison_override_result (text query : string) (obj d : dict) :
  comparison_trigger query ->
  extract_json text = inr (PDict obj) ->
  try_block (inr text) query = inr d ->
  preprocess_query (inr text) query = inr d /\
  dict_get d "query_type" = Some transport_comparison /\
  (dict_get obj "query_type" <> Some transport_comparison ->
   dict_get d "transport_modes" = Some (PList (scan_transport_modes query))) /\
  (dict_get obj "query_type" = Some transport_comparison ->
   dict_get d "transport_modes" = dict_get obj "transport_modes").
Proof.
  intros Hq Hx Hd. apply is_comparison_query_trigger in Hq.
  split; [now apply preprocess_query_returned|].
  rewrite (try_block_parsed _ _ _ Hx) in Hd.
  split; [|split].
  - rewrite (fix_airport_codes_other _ _ _ Hd) by neq_keys.
    now apply comparison_override_query_type.
  - intros Hne. rewrite (fix_airport_codes_other _ _ _ Hd) by neq_keys.
    rewrite comparison_override_fired.
    + apply dict_get_set_eq.
    + exact Hq.
    + apply py_ne_str_true. now rewrite dict_get_set_neq by neq_keys.
  - intros He. rewrite (fix_airport_codes_other _ _ _ Hd) by neq_keys.
    rewrite comparison_override_kept.
    + now rewrite dict_get_set_neq by neq_keys.
    + now rewrite dict_get_set_neq by neq_keys.
Qed.

Lemma comparison_override_result_witness :
  preprocess_query (inr flight_reply) flight_query =
  inr [("query_type", PStr "transport_comparison");
       ("origin", PStr "New York");
       ("destination", PStr "Paris");
       ("date_info", PDict [("start_date", PStr "2025-05-10");
                            ("end_date", PStr "2025-05-12");
                            ("duration", PStr "2")]);
       ("preferences", PList []);
       ("structured_query",
        PStr "flights from New York to Paris departing May 10, 2025");
       ("original_query", PStr flight_query);
       ("transport_modes", PList [PStr "flight"])].
Proof.
  refine (proj1 (comparison_override_result flight_reply flight_query
                   [("query_type", PStr "flight");
                    ("origin", PStr "New York");
                    ("destination", PStr "Paris");
                    ("date_info", PDict [("start_date", PStr "2025-05-10");
                                         ("end_date", PStr "2025-05-12");
                                         ("duration", PStr "2")]);
                    ("preferences", PList []);
                    ("structured_query",
                     PStr "flights from New York to Paris departing May 10, 2025")]
                   _ _ _ _)).
  - right; right. split; [|left]; vm_compute; reflexivity.
  - vm_compute. reflexivity.
  - vm_compute. reflexivity.
Defined.

(** *** C10 *)




(** *** C7 *)

(** C7, as the claim states it, fails: an origin that is none of the known
    cities does not make [origin_code] absent when the object of the model
    carries that field itself. *)
Lemma airport_code_from_model_example :
  airport_code "Paris" = None /\
  preprocess_query (inr (dq "{'origin': 'Paris', 'origin_code': 'CDG'}"))
                   "weekend in Paris"
  = inr [("origin", PStr "Paris"); ("origin_code", PStr "CDG");
         ("original_query", PStr "weekend in Paris")].
Proof. split; vm_compute; reflexivity. Qed.

(** C7 (amended).  For every successfully parsed result whose origin and
    destination, where present, are strings, [preprocess_query] returns a
    mapping in which [origin_code] and [destination_code] are "SFO" for an
    origin or destination that is sf or san francisco in any case, and
    "FAT" for fresno or fres in any case; for any other origin or
    destination the code field is as the parsed object had it, absent
    unless the object carried it. *)
Theorem airport_codes_result (text query : string) (obj : dict) (o dst : string) :
  extract_json text = inr (PDict obj) ->
  location_of obj "origin" = Some o ->
  location_of obj "destination" = Some dst ->
  exists d,
    preprocess_query (inr text) query = inr d /\
    dict_get d "origin_code" = code_field o (dict_get obj "origin_code") /\
    dict_get d "destination_code" = code_field dst (dict_get obj "destination_code").
Proof.
  intros Hx Ho Hd. eexists. split; [|split].
  - apply preprocess_query_returned. exact (try_block_table _ _ _ o dst Hx Ho Hd).
  - rewrite set_code_other by neq_keys. rewrite set_code_field.
    rewrite comparison_override_other by neq_keys.
    now rewrite dict_get_set_neq by neq_keys.
  - rewrite set_code_field. rewrite set_code_other by neq_keys.
    rewrite comparison_override_other by neq_keys.
    now rewrite dict_get_set_neq by neq_keys.
Qed.

Lemma airport_codes_result_witness :
  exists d,
    preprocess_query
      (inr (dq "{'query_type': 'flight', 'origin': 'San Francisco', 'destination': 'FRESNO'}"))
      "flights from San Francisco to Fresno" = inr d /\
    dict_get d "origin_code" = Some (PStr "SFO") /\
    dict_get d "destination_code" = Some (PStr "FAT").
Proof.
  apply (airport_codes_result
           (dq "{'query_type': 'flight', 'origin': 'San Francisco', 'destination': 'FRESNO'}")
           "flights from San Francisco to Fresno"
           [("query_type", PStr "flight"); ("origin", PStr "San Francisco");
            ("destination", PStr "FRESNO")]
           "San Francisco" "FRESNO");
    vm_compute; reflexivity.
Defined.

(** *** C6 *)

(** C6, as the claim states it, fails: with a brace in the leading prose
    the text from the first [{] to the last [}] is more than the embedded
    object, and it does not parse. *)
Lemma extraction_brace_in_prose_example :
  Json.loads (dq "{'origin': 'sf'}") = inr (PDict [("origin", PStr "sf")]) /\
  json_str ("Set {origin} here: " ++ dq "{'origin': 'sf'}" ++ " Done.")
  = "{origin} here: " ++ dq "{'origin': 'sf'}" /\
  preprocess_query
    (inr ("Set {origin} here: " ++ dq "{'origin': 'sf'}" ++ " Done.")) "hello"
  = inr [("error", PStr "Expecting property name enclosed in double quotes: line 1 column 2 (char 1)");
         ("original_query", PStr "hello");
         ("query_type", PStr "general")].
Proof. split; [|split]; vm_compute; reflexivity. Qed.

(** C6 (amended).  For every reply made of an object text, from a [{] to
    a [}], with leading prose that holds no [{] and trailing prose that
    holds no [}], the text from the first [{] to the last [}] inclusive is
    the embedded object, only it is parsed, and [preprocess_query] returns
    what it returns on the bare object. *)
Theorem extraction_of_embedded_object (pre body post query : string) :
  str_in "{" pre = false ->
  str_in "}" post = false ->
  json_str (pre ++ ("{" ++ body ++ "}") ++ post) = "{" ++ body ++ "}" /\
  extract_json (pre ++ ("{" ++ body ++ "}") ++ post)
  = Json.loads ("{" ++ body ++ "}") /\
  preprocess_query (inr (pre ++ ("{" ++ body ++ "}") ++ post)) query
  = preprocess_query (inr ("{" ++ body ++ "}")) query.
Proof.
  intros H1 H2.
  split; [now apply json_str_embedded|].
  split; [now apply extract_json_embedded|].
  unfold preprocess_query, try_block. cbn [bind Monad_either].
  now rewrite extract_json_bare, (extract_json_embedded _ _ _ H1 H2).
Qed.

Lemma extraction_of_embedded_object_witness :
  json_str ("Here is the result: " ++ ("{" ++ dq "'origin': 'sf'" ++ "}")
            ++ " Let me know if you need more.")
  = "{" ++ dq "'origin': 'sf'" ++ "}" /\
  extract_json ("Here is the result: " ++ ("{" ++ dq "'origin': 'sf'" ++ "}")
                ++ " Let me know if you need more.")
  = Json.loads ("{" ++ dq "'origin': 'sf'" ++ "}") /\
  preprocess_query
    (inr ("Here is the result: " ++ ("{" ++ dq "'origin': 'sf'" ++ "}")
          ++ " Let me know if you need more.")) "hello"
  = preprocess_query (inr ("{" ++ dq "'origin': 'sf'" ++ "}")) "hello".
Proof.
  apply (extraction_of_embedded_object
           "Here is the result: " (dq "'origin': 'sf'")
           " Let me know if you need more." "hello");
    vm_compute; reflexivity.
Defined.

(** *** C5 *)

(** C5, as the claim states it, fails: on a reply that is exactly a JSON
    object the overrides still run, and here they add two code fields to
    the fields of the object. *)
Lemma round_trip_adds_codes_example :
  Json.loads (dq "{'query_type': 'flight', 'origin': 'SF', 'destination': 'Fresno'}")
  = inr (PDict [("query_type", PStr "flight"); ("origin", PStr "SF");
                ("destination", PStr "Fresno")]) /\
  preprocess_query
    (inr (dq "{'query_type': 'flight', 'origin': 'SF', 'destination': 'Fresno'}"))
    "flights from SF to Fresno"
  = inr [("query_type", PStr "flight"); ("origin", PStr "SF");
         ("destination", PStr "Fresno");
         ("original_query", PStr "flights from SF to Fresno");
         ("origin_code", PStr "SFO"); ("destination_code", PStr "FAT")].
Proof. split; vm_compute; reflexivity. Qed.

(** C5 (amended).  For every query and every reply whose text is exactly a
    JSON object, from its [{] to its [}], the returned mapping has exactly
    the fields of that object with their values, plus [original_query], as
    long as neither override applies: the comparison test does not fire or
    the object already has [query_type] "transport_comparison", and origin
    and destination are absent or strings that name none of the known
    cities. *)
Theorem round_trip_without_overrides (body query : string) (obj : dict)
    (o dst : string) :
  Json.loads ("{" ++ body ++ "}") = inr (PDict obj) ->
  is_comparison_query query = false \/
    dict_get obj "query_type" = Some transport_comparison ->
  location_of obj "origin" = Some o -> airport_code o = None ->
  location_of obj "destination" = Some dst -> airport_code dst = None ->
  preprocess_query (inr ("{" ++ body ++ "}")) query
  = inr (dict_set obj "original_query" (PStr query)).
Proof.
  intros Hl Hq Ho Hoc Hd Hdc.
  assert (Hx : extract_json ("{" ++ body ++ "}") = inr (PDict obj))
    by (now rewrite extract_json_bare).
  apply preprocess_query_returned.
  rewrite (try_block_table _ _ _ o dst Hx Ho Hd).
  unfold set_code. rewrite Hoc, Hdc. f_equal.
  destruct Hq as [Hq|Hq].
  - now apply comparison_override_idle.
  - apply comparison_override_kept. now rewrite dict_get_set_neq by neq_keys.
Qed.

Lemma round_trip_without_overrides_witness :
  preprocess_query (inr ("{" ++ dq "'query_type': 'poi', 'destination': 'Rome'" ++ "}"))
                   "museums in Rome"
  = inr (dict_set [("query_type", PStr "poi"); ("destination", PStr "Rome")]
                  "original_query" (PStr "museums in Rome")).
Proof.
  apply (round_trip_without_overrides
           (dq "'query_type': 'poi', 'destination': 'Rome'") "museums in Rome"
           [("query_type", PStr "poi"); ("destination", PStr "Rome")]
           EmptyString "Rome");
    try (vm_compute; reflexivity).
  left. vm_compute. reflexivity.
Defined.

(** ** Further facts about the steps *)

Module MoreFacts.

(** *** Dictionaries *)

Lemma dict_set_same (d : dict) (k : string) (v : pyval) :
  dict_get d k = Some v -> dict_set d k v = d.
Proof.
  induction d as [|[k0 v0] r IH]; simpl; [discriminate|].
  destruct (String.eqb k0 k) eqn:E.
  - intros H. injection H as ->. reflexivity.
  - intros H. now rewrite IH.
Qed.

Lemma dict_contains_set (d : dict) (k k' : string) (v : pyval) :
  dict_contains d k = true -> dict_contains (dict_set d k' v) k = true.
Proof.
  unfold dict_contains. destruct (String.eqb_spec k' k) as [->|Hne].
  - now rewrite dict_get_set_eq.
  - now rewrite dict_get_set_neq.
Qed.

Lemma dict_contains_set_code (d : dict) (k k' city : string) :
  dict_contains d k = true -> dict_contains (set_code k' city d) k = true.
Proof.
  unfold set_code. destruct (airport_code city); [|trivial].
  apply dict_contains_set.
Qed.

Lemma dict_contains_override (query : string) (d : dict) (k : string) :
  dict_contains d k = true ->
  dict_contains (comparison_override query d) k = true.
Proof.
  intros H. destruct (is_comparison_query query) eqn:Hq;
    [|now rewrite comparison_override_idle].
  destruct (py_ne_str (dict_get d "query_type") "transport_comparison") eqn:E.
  - rewrite (comparison_override_fired _ _ Hq E).
    now apply dict_contains_set, dict_contains_set.
  - apply py_ne_str_false in E. now rewrite (comparison_override_kept _ _ E).
Qed.

(** *** Containment of one text in another *)

Lemma prefix_app (sub s b : string) :
  prefix sub s = true -> prefix sub (s ++ b) = true.
Proof.
  revert s. induction sub as [|c sub IH]; intros s H;
    [destruct (s ++ b); reflexivity|].
  destruct s as [|a s]; simpl in *; [discriminate|].
  destruct (ascii_dec c a); [now apply IH | discriminate].
Qed.

Lemma str_in_app_r (sub s b : string) :
  str_in sub s = true -> str_in sub (s ++ b) = true.
Proof.
  induction s as [|a s IH].
  - simpl. rewrite orb_false_r. destruct sub; [|discriminate].
    intros _. destruct b; reflexivity.
  - cbn [append]. cbn [str_in]. rewrite !orb_true_iff. intros [H|H].
    + left. exact (prefix_app _ (String a s) _ H).
    + right. now apply IH.
Qed.

Lemma str_in_app_l (sub a s : string) :
  str_in sub s = true -> str_in sub (a ++ s) = true.
Proof.
  intros H. induction a as [|c a IH]; [exact H|].
  cbn [append]. cbn [str_in]. apply orb_true_iff. now right.
Qed.

Lemma lower_app (a b : string) : lower (a ++ b) = lower a ++ lower b.
Proof. induction a as [|c a IH]; simpl; [reflexivity | now rewrite IH]. Qed.

Lemma str_in_embedded (sub a s b : string) :
  str_in sub (lower s) = true -> str_in sub (lower (a ++ s ++ b)) = true.
Proof.
  intros H. rewrite !lower_app. now apply str_in_app_l, str_in_app_r.
Qed.

(** *** The airport codes, when a location is not a string *)

Lemma py_lower_not_str (d : dict) (k : string) (v : pyval) :
  dict_get d k = Some v -> not_str v ->
  py_lower (dict_get_default d k (PStr EmptyString))
  = inl (AttributeError (no_attribute v "lower")).
Proof.
  intros Hg Hv. unfold dict_get_default. rewrite Hg.
  destruct v; try reflexivity. now destruct (Hv s).
Qed.

Lemma fix_airport_codes_origin (d : dict) (v : pyval) :
  dict_get d "origin" = Some v -> not_str v ->
  fix_airport_codes d = inl (AttributeError (no_attribute v "lower")).
Proof.
  intros Hg Hv. unfold fix_airport_codes.
  now rewrite (py_lower_not_str _ _ _ Hg Hv).
Qed.

Lemma fix_airport_codes_destination (d : dict) (o : string) (v : pyval) :
  location_of d "origin" = Some o ->
  dict_get d "destination" = Some v -> not_str v ->
  fix_airport_codes d = inl (AttributeError (no_attribute v "lower")).
Proof.
  intros Ho Hg Hv. unfold fix_airport_codes.
  rewrite (py_lower_location _ _ _ Ho). cbn [bind Monad_either].
  assert (Hd : forall w, dict_get (dict_set d "origin_code" w) "destination" = Some v)
    by (intros w; now rewrite dict_get_set_neq by neq_keys).
  destruct (list_in (lower o) ["sf"; "san francisco"]).
  - cbn [ret bind Monad_either]. now rewrite (py_lower_not_str _ _ _ (Hd _) Hv).
  - destruct (list_in (lower o) ["fresno"; "fres"]); cbn [ret bind Monad_either].
    + now rewrite (py_lower_not_str _ _ _ (Hd _) Hv).
    + now rewrite (py_lower_not_str _ _ _ Hg Hv).
Qed.

Lemma location_of_none (d : dict) (k : string) :
  location_of d k = None -> exists v, dict_get d k = Some v /\ not_str v.
Proof.
  unfold location_of. destruct (dict_get d k) as [v|]; [|discriminate].
  intros H. exists v. split; [reflexivity|].
  intros s ->. discriminate.
Qed.

(** What the override raises is the [AttributeError] of [lower]. *)
Lemma fix_airport_codes_raises_lower (d : dict) (e : exn) :
  fix_airport_codes d = inl e ->
  exists v, not_str v /\ e = AttributeError (no_attribute v "lower").
Proof.
  intros H.
  destruct (location_of d "origin") as [o|] eqn:Ho.
  - destruct (location_of d "destination") as [dst|] eqn:Hd.
    + rewrite (fix_airport_codes_table _ _ _ Ho Hd) in H. discriminate.
    + apply location_of_none in Hd as (v & Hg & Hv).
      rewrite (fix_airport_codes_destination _ _ _ Ho Hg Hv) in H.
      injection H as <-. eauto.
  - apply location_of_none in Ho as (v & Hg & Hv).
    rewrite (fix_airport_codes_origin _ _ Hg Hv) in H.
    injection H as <-. eauto.
Qed.

(** What the airport-code step raises comes from a location that is not
    a string, and names its type. *)
Lemma fix_airport_codes_raises_field (d : dict) (e : exn) :
  fix_airport_codes d = inl e ->
  exists k v, (k = "origin" \/ k = "destination") /\
              dict_get d k = Some v /\ not_str v /\
              e = AttributeError (no_attribute v "lower").
Proof.
  intros H.
  destruct (location_of d "origin") as [o|] eqn:Ho.
  - destruct (location_of d "destination") as [dst|] eqn:Hd.
    + rewrite (fix_airport_codes_table _ _ _ Ho Hd) in H. discriminate.
    + apply location_of_none in Hd as (v & Hg & Hv).
      rewrite (fix_airport_codes_destination _ _ _ Ho Hg Hv) in H.
      injection H as <-. exists "destination", v. auto.
  - apply location_of_none in Ho as (v & Hg & Hv).
    rewrite (fix_airport_codes_origin _ _ Hg Hv) in H.
    injection H as <-. exists "origin", v. auto.
Qed.

(** *** The block on a reply without usable braces *)

Lemma extract_json_no_close_brace (text : string) :
  str_in "}" text = false ->
  extract_json text
  = inr (PDict [("error", PStr "Could not extract structured data")]).
Proof.
  intros H. unfold extract_json, json_end.
  rewrite (str_rfind_absent _ _ H). cbn. now rewrite andb_false_r.
Qed.

Lemma try_block_unextracted (text query : string) :
  extract_json text
  = inr (PDict [("error", PStr "Could not extract structured data")]) ->
  try_block (inr text) query = inr (comparison_override query (unextracted query)).
Proof.
  intros H.
  rewrite (try_block_table _ _ _ EmptyString EmptyString H eq_refl eq_refl).
  reflexivity.
Qed.

(** *** The empty slice *)

Lemma json_str_crossed (text : string) :
  (0 <= str_rfind "}" text < str_find "{" text)%Z ->
  json_str text = EmptyString.
Proof.
  intros H. unfold json_str, py_slice, json_start, json_end, clamp_index.
  pose proof (str_find_get "{" text ltac:(lia)) as Hg.
  apply get_some_lt in Hg.
  destruct (Z.ltb_spec (str_find "{" text) 0); [lia|].
  destruct (Z.ltb_spec (str_rfind "}" text + 1) 0); [lia|].
  replace (Z.to_nat (Z.min (str_rfind "}" text + 1) (Z.of_nat (String.length text))
                     - Z.min (str_find "{" text) (Z.of_nat (String.length text))))
    with 0 by lia.
  apply substring_empty.
Qed.

(** *** The transport-mode scan *)

Lemma scan_transport_modes_nil (query : string) :
  scan_transport_modes query = [] <->
  forallb (fun k => negb (str_in k (lower query))) mode_words = true.
Proof.
  unfold scan_transport_modes, mode_keywords, mode_words.
  cbn [filter existsb snd forallb]. rewrite !orb_false_r, !andb_true_r.
  destruct (str_in "fly" (lower query)), (str_in "flight" (lower query)),
    (str_in "drive" (lower query)), (str_in "car" (lower query)),
    (str_in "train" (lower query)), (str_in "bus" (lower query));
    cbn; split; intros H; discriminate || reflexivity.
Qed.

End MoreFacts.
Import MoreFacts.

Module FrameFacts.

Lemma location_default (d : dict) (k s : string) :
  location_of d k = Some s -> dict_get_default d k (PStr EmptyString) = PStr s.
Proof.
  unfold location_of, dict_get_default.
  destruct (dict_get d k) as [[]|]; intros H; inversion H; reflexivity.
Qed.

Lemma not_written (k : string) :
  ~ In k written_keys ->
  k <> "original_query" /\ k <> "query_type" /\ k <> "transport_modes" /\
  k <> "origin_code" /\ k <> "destination_code".
Proof. unfold written_keys. simpl. intros H. repeat split; intros ->; tauto. Qed.

(** The pipeline of a parsed reply leaves every other key alone. *)
Lemma pipeline_frame (query : string) (obj : dict) (o dst k : string) :
  ~ In k written_keys ->
  dict_get
    (set_code "destination_code" dst
       (set_code "origin_code" o
          (comparison_override query
             (dict_set obj "original_query" (PStr query))))) k
  = dict_get obj k.
Proof.
  intros H. apply not_written in H as (H1 & H2 & H3 & H4 & H5).
  rewrite !set_code_other by congruence.
  rewrite comparison_override_other by congruence.
  apply dict_get_set_neq. congruence.
Qed.

Lemma pipeline_contains (query : string) (obj : dict) (o dst k : string) :
  dict_contains obj k = true ->
  dict_contains
    (set_code "destination_code" dst
       (set_code "origin_code" o
          (comparison_override query
             (dict_set obj "original_query" (PStr query))))) k = true.
Proof.
  intros H.
  now apply dict_contains_set_code, dict_contains_set_code,
    dict_contains_override, dict_contains_set.
Qed.

Lemma try_block_frame (text query : string) (obj d : dict) (k : string) :
  extract_json text = inr (PDict obj) ->
  try_block (inr text) query = inr d ->
  ~ In k written_keys -> dict_get d k = dict_get obj k.
Proof.
  intros Hx Hd Hk. rewrite (try_block_parsed _ _ _ Hx) in Hd.
  destruct (fix_airport_codes_locations _ _ Hd) as (o & dst & Ho & Hdst).
  rewrite (fix_airport_codes_table _ _ _ Ho Hdst) in Hd. injection Hd as <-.
  now apply pipeline_frame.
Qed.

Lemma try_block_locations (text query : string) (obj d : dict) :
  extract_json text = inr (PDict obj) ->
  try_block (inr text) query = inr d ->
  exists o dst, location_of obj "origin" = Some o /\
                location_of obj "destination" = Some dst.
Proof.
  intros Hx Hd. rewrite (try_block_parsed _ _ _ Hx) in Hd.
  destruct (fix_airport_codes_locations _ _ Hd) as (o & dst & Ho & Hdst).
  exists o, dst. unfold location_of in *.
  rewrite comparison_override_other in Ho, Hdst by neq_keys.
  rewrite dict_get_set_neq in Ho, Hdst by neq_keys. now split.
Qed.

(** [extract_travel_info] as a projection of the mapping that
    [preprocess_query] returned. *)
Lemma extract_travel_info_of (llm : py string) (query : string) (d : dict) :
  preprocess_query llm query = inr d ->
  extract_travel_info llm query =
  match py_get (dict_get_default d "date_info" (PDict []))
               "start_date" (PStr EmptyString) with
  | inl e => inl e
  | inr date =>
      inr (dict_get_default d "origin" (PStr EmptyString),
           dict_get_default d "destination" (PStr EmptyString), date)
  end.
Proof. intros H. unfold extract_travel_info. now rewrite H. Qed.

(** A mapping with none of the three fields projects to empty strings. *)
Lemma extract_travel_info_blank (llm : py string) (query : string) (d : dict) :
  preprocess_query llm query = inr d ->
  dict_get d "origin" = None -> dict_get d "destination" = None ->
  dict_get d "date_info" = None ->
  extract_travel_info llm query
  = inr (PStr EmptyString, PStr EmptyString, PStr EmptyString).
Proof.
  intros H H1 H2 H3. rewrite (extract_travel_info_of _ _ _ H).
  unfold dict_get_default. now rewrite H1, H2, H3.
Qed.

Lemma unextracted_frame (query k : string) :
  k <> "query_type" -> k <> "transport_modes" ->
  dict_get (comparison_override query (unextracted query)) k
  = dict_get (unextracted query) k.
Proof. intros. now apply comparison_override_other. Qed.

Lemma no_braces_unextracted (text : string) :
  str_in "{" text = false \/ str_in "}" text = false ->
  extract_json text
  = inr (PDict [("error", PStr "Could not extract structured data")]).
Proof.
  intros [H|H];
    [now apply extract_json_no_open_brace | now apply extract_json_no_close_brace].
Qed.

End FrameFacts.
Import FrameFacts.

(** ** Further properties *)

(** X1.  On a parsed reply whose origin and destination are absent or
    strings, [extract_travel_info] returns the origin, the destination and
    [date_info.start_date], each read as the empty string when it is
    missing; when [date_info] is there and is not a mapping, the
    [AttributeError] of [date_info.get] goes to the caller. *)
Theorem extract_travel_info_projection (text query : string) (obj : dict)
    (o dst : string) :
  extract_json text = inr (PDict obj) ->
  location_of obj "origin" = Some o ->
  location_of obj "destination" = Some dst ->
  extract_travel_info (inr text) query =
  match dict_get obj "date_info" with
  | None => inr (PStr o, PStr dst, PStr EmptyString)
  | Some (PDict m) =>
      inr (PStr o, PStr dst, dict_get_default m "start_date" (PStr EmptyString))
  | Some v => inl (AttributeError (no_attribute v "get"))
  end.
Proof.
  intros Hx Ho Hd. unfold extract_travel_info.
  rewrite (preprocess_query_returned _ _ _ (try_block_table _ _ _ _ _ Hx Ho Hd)).
  cbn [bind Monad_either].
  assert (F : forall k, ~ In k written_keys ->
            dict_get_default
              (set_code "destination_code" dst
                 (set_code "origin_code" o
                    (comparison_override query
                       (dict_set obj "original_query" (PStr query))))) k
            = dict_get_default obj k)
    by (intros k Hk; unfold dict_get_default; now rewrite pipeline_frame).
  rewrite !F by (simpl; intuition discriminate).
  rewrite (location_default _ _ _ Ho), (location_default _ _ _ Hd).
  unfold dict_get_default.
  destruct (dict_get obj "date_info") as [[]|]; reflexivity.
Qed.

Lemma extract_travel_info_projection_witness :
  extract_travel_info (inr flight_reply) flight_query
  = inr (PStr "New York", PStr "Paris", PStr "2025-05-10") /\
  extract_travel_info (inr (dq "{'origin': 'Oslo', 'date_info': null}")) "hello"
  = inl (AttributeError "'NoneType' object has no attribute 'get'").
Proof.
  split.
  - refine (extract_travel_info_projection flight_reply flight_query
              [("query_type", PStr "flight");
               ("origin", PStr "New York");
               ("destination", PStr "Paris");
               ("date_info", PDict [("start_date", PStr "2025-05-10");
                                    ("end_date", PStr "2025-05-12");
                                    ("duration", PStr "2")]);
               ("preferences", PList []);
               ("structured_query",
                PStr "flights from New York to Paris departing May 10, 2025")]
              "New York" "Paris" _ _ _); vm_compute; reflexivity.
  - refine (extract_travel_info_projection
              (dq "{'origin': 'Oslo', 'date_info': null}") "hello"
              [("origin", PStr "Oslo"); ("date_info", PNone)]
              "Oslo" EmptyString _ _ _); vm_compute; reflexivity.
Defined.

(** X2.  Whatever the remote service does, the origin and the destination
    that [extract_travel_info] returns are strings: a parsed origin or
    destination of another type sends [preprocess_query] to its handler,
    whose mapping has neither field. *)
Theorem extract_travel_info_strings (llm : py string) (query : string)
    (origin destination date : pyval) :
  extract_travel_info llm query = inr (origin, destination, date) ->
  exists o dst, origin = PStr o /\ destination = PStr dst.
Proof.
  destruct (try_block llm query) as [e|d] eqn:Ht.
  - rewrite (extract_travel_info_blank _ _ _ (preprocess_query_raised _ _ _ Ht))
      by reflexivity.
    intros H. injection H as <- <- _. eauto.
  - rewrite (extract_travel_info_of _ _ _ (preprocess_query_returned _ _ _ Ht)).
    apply try_block_inv in Ht as (text & obj & _ & _ & Hf).
    destruct (fix_airport_codes_locations _ _ Hf) as (o & dst & Ho & Hd).
    assert (Ho' : location_of d "origin" = Some o)
      by (unfold location_of in *;
          now rewrite (fix_airport_codes_other _ _ _ Hf) by neq_keys).
    assert (Hd' : location_of d "destination" = Some dst)
      by (unfold location_of in *;
          now rewrite (fix_airport_codes_other _ _ _ Hf) by neq_keys).
    rewrite (location_default _ _ _ Ho'), (location_default _ _ _ Hd').
    destruct (py_get _ _ _); [discriminate|].
    intros H. injection H as <- <- _. eauto.
Qed.

Lemma extract_travel_info_strings_witness :
  exists o dst, PStr "New York" = PStr o /\ PStr "Paris" = PStr dst.
Proof.
  apply (extract_travel_info_strings (inr flight_reply) flight_query
           (PStr "New York") (PStr "Paris") (PStr "2025-05-10")).
  vm_compute. reflexivity.
Defined.

(** X3.  Whenever no object is obtained from the service, that is when the
    call ends in the handler or the reply lacks a [{] or a [}],
    [extract_travel_info] returns three empty strings: a failure reads the
    same as a query without travel details. *)
Theorem extract_travel_info_on_failure (llm : py string) (query : string) :
  (exists e, try_block llm query = inl e) \/
  (exists text, llm = inr text /\
                (str_in "{" text = false \/ str_in "}" text = false)) ->
  extract_travel_info llm query
  = inr (PStr EmptyString, PStr EmptyString, PStr EmptyString).
Proof.
  intros [[e He] | (text & -> & Hb)].
  - now apply (extract_travel_info_blank _ _ _ (preprocess_query_raised _ _ _ He)).
  - apply no_braces_unextracted in Hb.
    apply (extract_travel_info_blank _ _ _
             (preprocess_query_returned _ _ _ (try_block_unextracted _ query Hb)));
      now rewrite unextracted_frame by neq_keys.
Qed.

Lemma extract_travel_info_on_failure_witness :
  extract_travel_info (inl (OtherError "TimeoutError" "timed out")) "fly to Oslo"
  = inr (PStr EmptyString, PStr EmptyString, PStr EmptyString) /\
  extract_travel_info (inr "I cannot help with that.") "fly to Oslo"
  = inr (PStr EmptyString, PStr EmptyString, PStr EmptyString).
Proof.
  split.
  - apply extract_travel_info_on_failure. left.
    exists (OtherError "TimeoutError" "timed out"). reflexivity.
  - apply extract_travel_info_on_failure. right.
    exists "I cannot help with that.". split; [reflexivity|].
    left. vm_compute. reflexivity.
Defined.

(** X4.  [extract_travel_info] raises in one situation only: an object was
    parsed, [preprocess_query] returned it, and its [date_info] is not a
    mapping.  The exception is the [AttributeError] of [date_info.get];
    a failure of the remote call or of the parsing never reaches the
    caller. *)
Theorem extract_travel_info_raises_only (llm : py string) (query : string)
    (e : exn) :
  extract_travel_info llm query = inl e ->
  exists text obj v,
    llm = inr text /\ extract_json text = inr (PDict obj) /\
    dict_get obj "date_info" = Some v /\ not_dict v /\
    e = AttributeError (no_attribute v "get").
Proof.
  destruct (try_block llm query) as [e'|d] eqn:Ht.
  - rewrite (extract_travel_info_blank _ _ _ (preprocess_query_raised _ _ _ Ht))
      by reflexivity.
    discriminate.
  - rewrite (extract_travel_info_of _ _ _ (preprocess_query_returned _ _ _ Ht)).
    destruct (try_block_inv _ _ _ Ht) as (text & obj & -> & Hx & _).
    pose proof (try_block_frame _ _ _ _ "date_info" Hx Ht
                  ltac:(simpl; intuition discriminate)) as Hf.
    unfold dict_get_default at 1. rewrite Hf.
    destruct (dict_get obj "date_info") as [v|] eqn:Hv; [|discriminate].
    destruct v; cbn [py_get ret raise Monad_either Exception_either];
      try discriminate;
      intros H; injection H as <-;
      exists text, obj; eexists;
      (split; [reflexivity|]); (split; [exact Hx|]); (split; [exact Hv|]);
      (split; [intros m; discriminate | reflexivity]).
Qed.

Lemma extract_travel_info_raises_only_witness :
  exists text obj v,
    (inr (dq "{'date_info': 'next week'}") : py string) = inr text /\
    extract_json text = inr (PDict obj) /\
    dict_get obj "date_info" = Some v /\ not_dict v /\
    AttributeError "'str' object has no attribute 'get'"
    = AttributeError (no_attribute v "get").
Proof.
  apply (extract_travel_info_raises_only
           (inr (dq "{'date_info': 'next week'}")) "hello").
  vm_compute. reflexivity.
Defined.

(** X5.  On a parsed reply whose origin and destination are absent or
    strings, [preprocess_query] only adds to the object: no key of the
    object is removed, and every field other than the five the method
    writes ([original_query], [query_type], [transport_modes],
    [origin_code], [destination_code]) has the value the reply gave it. *)
Theorem preprocess_query_keeps_fields (text query : string) (obj : dict)
    (o dst : string) :
  extract_json text = inr (PDict obj) ->
  location_of obj "origin" = Some o ->
  location_of obj "destination" = Some dst ->
  exists d,
    preprocess_query (inr text) query = inr d /\
    (forall k, ~ In k written_keys -> dict_get d k = dict_get obj k) /\
    (forall k, dict_contains obj k = true -> dict_contains d k = true).
Proof.
  intros Hx Ho Hd. eexists. split; [|split].
  - exact (preprocess_query_returned _ _ _ (try_block_table _ _ _ _ _ Hx Ho Hd)).
  - intros k Hk. now apply pipeline_frame.
  - intros k Hk. now apply pipeline_contains.
Qed.

Lemma preprocess_query_keeps_fields_witness :
  exists d,
    preprocess_query (inr flight_reply) flight_query = inr d /\
    (forall k, ~ In k written_keys ->
       dict_get d k
       = dict_get [("query_type", PStr "flight");
                   ("origin", PStr "New York");
                   ("destination", PStr "Paris");
                   ("date_info", PDict [("start_date", PStr "2025-05-10");
                                        ("end_date", PStr "2025-05-12");
                                        ("duration", PStr "2")]);
                   ("preferences", PList []);
                   ("structured_query",
                    PStr "flights from New York to Paris departing May 10, 2025")]
                  k) /\
    (forall k,
       dict_contains [("query_type", PStr "flight");
                      ("origin", PStr "New York");
                      ("destination", PStr "Paris");
                      ("date_info", PDict [("start_date", PStr "2025-05-10");
                                           ("end_date", PStr "2025-05-12");
                                           ("duration", PStr "2")]);
                      ("preferences", PList []);
                      ("structured_query",
                       PStr "flights from New York to Paris departing May 10, 2025")]
                     k = true ->
       dict_contains d k = true).
Proof.
  apply (preprocess_query_keeps_fields flight_reply flight_query _
           "New York" "Paris"); vm_compute; reflexivity.
Defined.

(** X6.  A parsed origin that is not a string, or a parsed destination
    that is not a string beside an origin that is absent or a string,
    makes [.lower()] raise inside the [try]: [preprocess_query] returns the
    handler's mapping, whose [error] names the type of the value, and the
    parsed object is lost. *)
Theorem non_string_location_degrades (text query : string) (obj : dict)
    (v : pyval) :
  extract_json text = inr (PDict obj) ->
  dict_get obj "origin" = Some v \/
  ((exists o, location_of obj "origin" = Some o) /\
   dict_get obj "destination" = Some v) ->
  not_str v ->
  preprocess_query (inr text) query
  = inr (degraded (no_attribute v "lower") query).
Proof.
  intros Hx Hc Hv.
  apply (preprocess_query_raised _ _ (AttributeError (no_attribute v "lower"))).
  rewrite (try_block_parsed _ _ _ Hx).
  assert (F : forall k, k = "origin" \/ k = "destination" ->
            dict_get (comparison_override query
                        (dict_set obj "original_query" (PStr query))) k
            = dict_get obj k).
  { intros k Hk. rewrite comparison_override_other
      by (destruct Hk as [-> | ->]; neq_keys).
    apply dict_get_set_neq. destruct Hk as [-> | ->]; neq_keys. }
  destruct Hc as [Hg | [[o Ho] Hg]].
  - apply fix_airport_codes_origin; [|exact Hv]. now rewrite F by auto.
  - apply (fix_airport_codes_destination _ o); [| |exact Hv].
    + unfold location_of in *. now rewrite F by auto.
    + now rewrite F by auto.
Qed.

Lemma non_string_location_degrades_witness :
  preprocess_query (inr (dq "{'origin': null, 'destination': 'Paris'}"))
                   "fly to Paris"
  = inr (degraded "'NoneType' object has no attribute 'lower'" "fly to Paris") /\
  preprocess_query (inr (dq "{'origin': 'SF', 'destination': ['LA', 'Paris']}"))
                   "fly from SF"
  = inr (degraded "'list' object has no attribute 'lower'" "fly from SF").
Proof.
  split.
  - refine (non_string_location_degrades
              (dq "{'origin': null, 'destination': 'Paris'}") "fly to Paris"
              [("origin", PNone); ("destination", PStr "Paris")] PNone _ _ _).
    + vm_compute. reflexivity.
    + left. reflexivity.
    + intros s. discriminate.
  - refine (non_string_location_degrades
              (dq "{'origin': 'SF', 'destination': ['LA', 'Paris']}") "fly from SF"
              [("origin", PStr "SF");
               ("destination", PList [PStr "LA"; PStr "Paris"])]
              (PList [PStr "LA"; PStr "Paris"]) _ _ _).
    + vm_compute. reflexivity.
    + right. split; [exists "SF"|]; reflexivity.
    + intros s. discriminate.
Defined.

(** X7.  Once a reply has been parsed into an object, the only exception
    the rest of the [try] block raises is the [AttributeError] of
    [.lower()] on an origin or a destination of the object that is not a
    string: adding [original_query] and the comparison override never
    raise. *)
Theorem post_processing_raises_only (text query : string) (obj : dict)
    (e : exn) :
  extract_json text = inr (PDict obj) ->
  try_block (inr text) query = inl e ->
  exists k v,
    (k = "origin" \/ k = "destination") /\
    dict_get obj k = Some v /\ not_str v /\
    e = AttributeError (no_attribute v "lower").
Proof.
  intros Hx He. rewrite (try_block_parsed _ _ _ Hx) in He.
  apply fix_airport_codes_raises_field in He as (k & v & Hk & Hg & Hv & ->).
  exists k, v. split; [exact Hk|]. split; [|split; [exact Hv | reflexivity]].
  rewrite comparison_override_other in Hg
    by (destruct Hk as [-> | ->]; neq_keys).
  rewrite dict_get_set_neq in Hg by (destruct Hk as [-> | ->]; neq_keys).
  exact Hg.
Qed.

Lemma post_processing_raises_only_witness :
  exists k v,
    (k = "origin" \/ k = "destination") /\
    dict_get [("origin", PStr "SF"); ("destination", PInt 7)] k = Some v /\
    not_str v /\
    AttributeError "'int' object has no attribute 'lower'"
    = AttributeError (no_attribute v "lower").
Proof.
  apply (post_processing_raises_only
           (dq "{'origin': 'SF', 'destination': 7}") "fly from SF");
    vm_compute; reflexivity.
Defined.

(** X8.  When the last [}] of the reply comes before its first [{], the
    slice handed to [json.loads] is empty: [preprocess_query] returns the
    handler's mapping with the decoder's message for an empty document,
    not the marker of line 122. *)
Theorem crossed_braces_error (text query : string) :
  (0 <= str_rfind "}" text < str_find "{" text)%Z ->
  json_str text = EmptyString /\
  preprocess_query (inr text) query
  = inr (degraded "Expecting value: line 1 column 1 (char 0)" query).
Proof.
  intros H. pose proof (json_str_crossed _ H) as Hs. split; [exact Hs|].
  apply (preprocess_query_raised _ _
           (JSONDecodeError "Expecting value" EmptyString 0)).
  unfold try_block. cbn [bind Monad_either].
  rewrite extract_json_found by (unfold json_start, json_end; lia).
  rewrite Hs, JsonFacts.loads_empty. reflexivity.
Qed.

Lemma crossed_braces_error_witness :
  json_str "Use } to close and { to open." = EmptyString /\
  preprocess_query (inr "Use } to close and { to open.") "hello"
  = inr (degraded "Expecting value: line 1 column 1 (char 0)" "hello").
Proof.
  apply (crossed_braces_error "Use } to close and { to open." "hello").
  vm_compute. split; discriminate || reflexivity.
Defined.

(** X9.  A reply that lacks a [{] or lacks a [}] is not decoded.  The
    returned mapping has the marker as its [error] and the query as its
    [original_query]; it has a [query_type] and [transport_modes] only
    when the query triggers the comparison override, and it is never the
    handler's mapping with [query_type] general. *)
Theorem missing_brace_result (text query : string) :
  str_in "{" text = false \/ str_in "}" text = false ->
  exists d,
    preprocess_query (inr text) query = inr d /\
    dict_get d "error" = Some (PStr "Could not extract structured data") /\
    dict_get d "original_query" = Some (PStr query) /\
    dict_get d "query_type"
    = (if is_comparison_query query then Some transport_comparison else None) /\
    dict_get d "transport_modes"
    = (if is_comparison_query query
       then Some (PList (scan_transport_modes query)) else None).
Proof.
  intros Hb. apply no_braces_unextracted in Hb.
  exists (comparison_override query (unextracted query)).
  split; [exact (preprocess_query_returned _ _ _
                   (try_block_unextracted _ query Hb))|].
  rewrite !unextracted_frame by neq_keys.
  split; [reflexivity|]. split; [reflexivity|].
  destruct (is_comparison_query query) eqn:Hq.
  - rewrite (comparison_override_fired _ _ Hq) by reflexivity.
    rewrite dict_get_set_neq by neq_keys.
    now rewrite !dict_get_set_eq.
  - rewrite (comparison_override_idle _ _ Hq). split; reflexivity.
Qed.

Lemma missing_brace_result_witness :
  exists d,
    preprocess_query (inr (dq "{'origin': 'SF', 'destination': 'Fresno'"))
                     "train vs bus" = inr d /\
    dict_get d "error" = Some (PStr "Could not extract structured data") /\
    dict_get d "original_query" = Some (PStr "train vs bus") /\
    dict_get d "query_type" = Some transport_comparison /\
    dict_get d "transport_modes" = Some (PList [PStr "train"; PStr "bus"]).
Proof.
  apply (missing_brace_result (dq "{'origin': 'SF', 'destination': 'Fresno'")
           "train vs bus").
  right. vm_compute. reflexivity.
Defined.

(** X10.  When the comparison override fires, the list of transport modes
    it writes is empty exactly when the lowercase query has none of the
    six keywords, which happens only for a query that triggers by vs or
    versus: a query that triggers by or with fly or drive always gets at
    least one mode. *)
Theorem override_modes_empty (query : string) (d : dict) :
  is_comparison_query query = true ->
  dict_get d "query_type" <> Some transport_comparison ->
  (dict_get (comparison_override query d) "transport_modes" = Some (PList [])
   <-> forallb (fun k => negb (str_in k (lower query))) mode_words = true) /\
  (str_in "vs" (lower query) = false ->
   str_in "versus" (lower query) = false ->
   dict_get (comparison_override query d) "transport_modes" <> Some (PList [])).
Proof.
  intros Hq Ht.
  rewrite (comparison_override_fired _ _ Hq (py_ne_str_true _ _ Ht)).
  rewrite dict_get_set_eq.
  assert (E : Some (PList (scan_transport_modes query)) = Some (PList [])
              <-> forallb (fun k => negb (str_in k (lower query))) mode_words
                  = true).
  { rewrite <- scan_transport_modes_nil. split.
    - intros H. now injection H.
    - now intros ->. }
  split; [exact E|].
  intros Hvs Hversus Hn. apply E in Hn.
  apply is_comparison_query_trigger in Hq.
  unfold mode_words in Hn. cbn [forallb] in Hn.
  rewrite !andb_true_iff, !negb_true_iff in Hn.
  destruct Hq as [Hq | [Hq | [_ [Hq | Hq]]]]; intuition congruence.
Qed.

Lemma override_modes_empty_witness :
  (dict_get (comparison_override "Rome vs Paris" [("query_type", PStr "poi")])
            "transport_modes" = Some (PList [])
   <-> forallb (fun k => negb (str_in k (lower "Rome vs Paris"))) mode_words
       = true) /\
  (str_in "vs" (lower "Rome vs Paris") = false ->
   str_in "versus" (lower "Rome vs Paris") = false ->
   dict_get (comparison_override "Rome vs Paris" [("query_type", PStr "poi")])
            "transport_modes" <> Some (PList [])).
Proof.
  apply (override_modes_empty "Rome vs Paris" [("query_type", PStr "poi")]).
  - vm_compute. reflexivity.
  - vm_compute. discriminate.
Defined.

(** X11.  On a parsed reply whose origin and destination are absent or
    strings, [get_optimized_query] returns the [structured_query] of the
    reply as it is, of whatever type, and the query when the reply has
    none: no step of [preprocess_query] touches that field. *)
Theorem get_optimized_query_of_reply (text query tool_name : string)
    (obj : dict) (o dst : string) :
  extract_json text = inr (PDict obj) ->
  location_of obj "origin" = Some o ->
  location_of obj "destination" = Some dst ->
  get_optimized_query (inr text) query tool_name
  = inr (match dict_get obj "structured_query" with
         | Some v => v
         | None => PStr query
         end).
Proof.
  intros Hx Ho Hd. unfold get_optimized_query.
  rewrite (preprocess_query_returned _ _ _ (try_block_table _ _ _ _ _ Hx Ho Hd)).
  cbn [bind Monad_either]. unfold dict_contains.
  rewrite pipeline_frame by (simpl; intuition discriminate).
  destruct (dict_get obj "structured_query"); reflexivity.
Qed.

Lemma get_optimized_query_of_reply_witness :
  get_optimized_query (inr flight_reply) flight_query "apify_flight"
  = inr (PStr "flights from New York to Paris departing May 10, 2025") /\
  get_optimized_query (inr (dq "{'structured_query': null}")) "hello" "apify_flight"
  = inr PNone.
Proof.
  split.
  - refine (get_optimized_query_of_reply flight_reply flight_query "apify_flight"
              [("query_type", PStr "flight");
               ("origin", PStr "New York");
               ("destination", PStr "Paris");
               ("date_info", PDict [("start_date", PStr "2025-05-10");
                                    ("end_date", PStr "2025-05-12");
                                    ("duration", PStr "2")]);
               ("preferences", PList []);
               ("structured_query",
                PStr "flights from New York to Paris departing May 10, 2025")]
              "New York" "Paris" _ _ _); vm_compute; reflexivity.
  - refine (get_optimized_query_of_reply (dq "{'structured_query': null}")
              "hello" "apify_flight" [("structured_query", PNone)]
              EmptyString EmptyString _ _ _); vm_compute; reflexivity.
Defined.

(** X12.  Whenever no object is obtained from the service, that is when
    the call ends in the handler or the reply lacks a [{] or a [}],
    [get_optimized_query] falls back to the query unchanged. *)
Theorem get_optimized_query_on_failure (llm : py string)
    (query tool_name : string) :
  (exists e, try_block llm query = inl e) \/
  (exists text, llm = inr text /\
                (str_in "{" text = false \/ str_in "}" text = false)) ->
  get_optimized_query llm query tool_name = inr (PStr query).
Proof.
  intros [[e He] | (text & -> & Hb)]; unfold get_optimized_query.
  - now rewrite (preprocess_query_raised _ _ _ He).
  - apply no_braces_unextracted in Hb.
    rewrite (preprocess_query_returned _ _ _ (try_block_unextracted _ query Hb)).
    cbn [bind Monad_either]. unfold dict_contains.
    now rewrite unextracted_frame by neq_keys.
Qed.

Lemma get_optimized_query_on_failure_witness :
  get_optimized_query (inr "{not json}") "fly to Oslo" "apify_flight"
  = inr (PStr "fly to Oslo") /\
  get_optimized_query (inr "I cannot help with that.") "fly to Oslo" "apify_flight"
  = inr (PStr "fly to Oslo").
Proof.
  split.
  - apply get_optimized_query_on_failure. left.
    eexists. vm_compute. reflexivity.
  - apply get_optimized_query_on_failure. right.
    exists "I cannot help with that.". split; [reflexivity|].
    left. vm_compute. reflexivity.
Defined.

(** X13.  The test of the comparison override is a substring test on the
    lowercase query, so text around a query never switches it off: a
    query that contains a triggering query triggers too. *)
Theorem comparison_trigger_embedded (a q b : string) :
  is_comparison_query q = true -> is_comparison_query (a ++ q ++ b) = true.
Proof.
  unfold is_comparison_query.
  rewrite !orb_true_iff, !andb_true_iff, !orb_true_iff.
  intros [[H | H] | [H [H' | H']]];
    auto using str_in_embedded.
Qed.

Lemma comparison_trigger_embedded_witness :
  is_comparison_query ("Which is cheaper: " ++ "drive or fly" ++ " to Reno?")
  = true.
Proof.
  apply (comparison_trigger_embedded "Which is cheaper: " "drive or fly"
           " to Reno?").
  vm_compute. reflexivity.
Defined.
